(** * Shallow embedding of the Lidarr Terraform provider's notification,
    indexer and custom-format adapters (internal/provider). *)

From Stdlib Require Import ZArith Lia List Bool String Ascii.
Import ListNotations.
Open Scope string_scope.
Open Scope Z_scope.

(** ** Terraform framework values (types.Bool, types.Int64, types.String,
    types.Set).  The Go zero value of each of them is the null value. *)

Inductive tfvalue (A : Type) : Type :=
| TNull : tfvalue A
| TUnknown : tfvalue A
| TKnown : A -> tfvalue A.
Arguments TNull {A}.
Arguments TUnknown {A}.
Arguments TKnown {A} _.

(** [ValueBool], [ValueInt64], [ValueString]: the zero value when null or
    unknown. *)
Definition ValueBool (v : tfvalue bool) : bool :=
  match v with TKnown b => b | _ => false end.
Definition ValueInt64 (v : tfvalue Z) : Z :=
  match v with TKnown z => z | _ => 0 end.
Definition ValueString (v : tfvalue string) : string :=
  match v with TKnown s => s | _ => "" end.
Definition StringValue (s : string) : tfvalue string := TKnown s.

(** [tfsdk.ValueAs] of a set into a Go slice; its error is ignored by the
    callers, which then keep an empty slice. *)
Definition ValueAs {A} (v : tfvalue (list A)) : list A :=
  match v with TKnown l => l | _ => [] end.

(** Go conversion [int32(x)] of an int64: two's-complement wrap-around. *)
Definition int32_of (z : Z) : Z :=
  let m := z mod 2 ^ 32 in if m >=? 2 ^ 31 then m - 2 ^ 32 else m.

(** ** The generic notification record ([Notification]).
    Modelled from the spec: the superset pivot record (§3, §4.2) declared in
    notification_resource.go, which is not part of this snapshot; it is
    restricted here to the attribute slots that the four variant adapters
    below read or write, with the types those adapters give them. *)
Module Notification.
Record Notification : Type := mkNotification {
  Tags : tfvalue (list Z);
  To : tfvalue (list string);
  Cc : tfvalue (list string);
  Bcc : tfvalue (list string);
  From : tfvalue string;
  Server : tfvalue string;
  AppToken : tfvalue string;
  Path : tfvalue string;
  Arguments : tfvalue string;
  Host : tfvalue string;
  URLBase : tfvalue string;
  Name : tfvalue string;
  Username : tfvalue string;
  Password : tfvalue string;
  Implementation : tfvalue string;
  ConfigContract : tfvalue string;
  Priority : tfvalue Z;
  Port : tfvalue Z;
  ID : tfvalue Z;
  RequireEncryption : tfvalue bool;
  UseSSL : tfvalue bool;
  Notify : tfvalue bool;
  UpdateLibrary : tfvalue bool;
  OnGrab : tfvalue bool;
  OnReleaseImport : tfvalue bool;
  OnUpgrade : tfvalue bool;
  OnRename : tfvalue bool;
  OnAlbumDelete : tfvalue bool;
  OnArtistDelete : tfvalue bool;
  OnHealthIssue : tfvalue bool;
  OnHealthRestored : tfvalue bool;
  OnDownloadFailure : tfvalue bool;
  OnImportFailure : tfvalue bool;
  OnTrackRetag : tfvalue bool;
  OnApplicationUpdate : tfvalue bool;
  IncludeHealthWarnings : tfvalue bool
}.

(** The Go zero value [Notification{}]: every attribute null. *)
Definition zero : Notification := {|
  Tags := TNull; To := TNull; Cc := TNull; Bcc := TNull; From := TNull;
  Server := TNull; AppToken := TNull; Path := TNull; Arguments := TNull;
  Host := TNull; URLBase := TNull; Name := TNull; Username := TNull;
  Password := TNull; Implementation := TNull; ConfigContract := TNull;
  Priority := TNull; Port := TNull; ID := TNull; RequireEncryption := TNull;
  UseSSL := TNull; Notify := TNull; UpdateLibrary := TNull; OnGrab := TNull;
  OnReleaseImport := TNull; OnUpgrade := TNull; OnRename := TNull;
  OnAlbumDelete := TNull; OnArtistDelete := TNull; OnHealthIssue := TNull;
  OnHealthRestored := TNull; OnDownloadFailure := TNull;
  OnImportFailure := TNull; OnTrackRetag := TNull;
  OnApplicationUpdate := TNull; IncludeHealthWarnings := TNull |}.
End Notification.
Import Notification (Notification).

(** ** Wire records (lidarr.NotificationResource / NotificationInput /
    NotificationOutput): identity attributes, event flags and the dynamic
    field list. *)
Inductive FieldValue : Type :=
| FBool (b : bool)
| FInt (z : Z)
| FString (s : string)
| FInts (l : list Z)
| FStrings (l : list string).

Record Field : Type := mkField { field_name : string; field_value : FieldValue }.

Record NotificationResource : Type := mkNotificationResource {
  Id : Z;
  WName : string;
  WImplementation : string;
  WConfigContract : string;
  WTags : list Z;
  Fields : list Field;
  WOnGrab : bool;
  WOnReleaseImport : bool;
  WOnUpgrade : bool;
  WOnRename : bool;
  WOnAlbumDelete : bool;
  WOnArtistDelete : bool;
  WOnHealthIssue : bool;
  WOnHealthRestored : bool;
  WOnDownloadFailure : bool;
  WOnImportFailure : bool;
  WOnTrackRetag : bool;
  WOnApplicationUpdate : bool;
  WIncludeHealthWarnings : bool
}.

(** The field codec and the generic write of notification_resource.go,
    which are not in this snapshot.  None of the properties below depends
    on how they work, so they are kept abstract: every statement holds for
    every implementation of this interface. *)
Class NotificationCodec : Type := {
  readFields : Notification -> list Field;
  writeFields : Notification -> list Field -> Notification;
  Notification_write : Notification -> NotificationResource -> Notification
}.

(** Modelled from the spec: the generic [Notification.read] (§4.3, the
    identity pair and attributes of the generic record are copied onto the
    request, the field list comes from the codec). *)
Definition Notification_read `{NotificationCodec} (n : Notification) : NotificationResource := {|
  WOnGrab := ValueBool (Notification.OnGrab n);
  WOnReleaseImport := ValueBool (Notification.OnReleaseImport n);
  WOnUpgrade := ValueBool (Notification.OnUpgrade n);
  WOnRename := ValueBool (Notification.OnRename n);
  WOnAlbumDelete := ValueBool (Notification.OnAlbumDelete n);
  WOnArtistDelete := ValueBool (Notification.OnArtistDelete n);
  WOnHealthIssue := ValueBool (Notification.OnHealthIssue n);
  WOnHealthRestored := ValueBool (Notification.OnHealthRestored n);
  WOnDownloadFailure := ValueBool (Notification.OnDownloadFailure n);
  WOnImportFailure := ValueBool (Notification.OnImportFailure n);
  WOnTrackRetag := ValueBool (Notification.OnTrackRetag n);
  WOnApplicationUpdate := ValueBool (Notification.OnApplicationUpdate n);
  WIncludeHealthWarnings := ValueBool (Notification.IncludeHealthWarnings n);
  WConfigContract := ValueString (Notification.ConfigContract n);
  WImplementation := ValueString (Notification.Implementation n);
  Id := int32_of (ValueInt64 (Notification.ID n));
  WName := ValueString (Notification.Name n);
  WTags := ValueAs (Notification.Tags n);
  Fields := readFields n |}.

(** ** Variant adapters: the typed records and their projections to and
    from the generic record.  Attributes a Go struct literal does not name
    keep their zero (null) value. *)

(** notification_custom_script_resource.go *)
Module NotificationCustomScript.
Definition notificationCustomScriptResourceName := "notification_custom_script".
Definition notificationCustomScriptImplementation := "CustomScript".
Definition notificationCustomScriptConfigContract := "CustomScriptSettings".

Record NotificationCustomScript : Type := mk {
  Tags : tfvalue (list Z);
  Arguments : tfvalue string;
  Path : tfvalue string;
  Name : tfvalue string;
  ID : tfvalue Z;
  OnGrab : tfvalue bool;
  OnReleaseImport : tfvalue bool;
  OnUpgrade : tfvalue bool;
  OnRename : tfvalue bool;
  OnHealthIssue : tfvalue bool;
  OnHealthRestored : tfvalue bool;
  OnDownloadFailure : tfvalue bool;
  OnImportFailure : tfvalue bool;
  OnTrackRetag : tfvalue bool;
  IncludeHealthWarnings : tfvalue bool;
  OnApplicationUpdate : tfvalue bool
}.

Definition toNotification (n : NotificationCustomScript) : Notification := {|
  Notification.Tags := Tags n;
  Notification.Path := Path n;
  Notification.Arguments := Arguments n;
  Notification.Name := Name n;
  Notification.ID := ID n;
  Notification.OnGrab := OnGrab n;
  Notification.OnReleaseImport := OnReleaseImport n;
  Notification.OnDownloadFailure := OnDownloadFailure n;
  Notification.IncludeHealthWarnings := IncludeHealthWarnings n;
  Notification.OnApplicationUpdate := OnApplicationUpdate n;
  Notification.OnHealthIssue := OnHealthIssue n;
  Notification.OnHealthRestored := OnHealthRestored n;
  Notification.OnImportFailure := OnImportFailure n;
  Notification.OnRename := OnRename n;
  Notification.OnUpgrade := OnUpgrade n;
  Notification.OnTrackRetag := OnTrackRetag n;
  Notification.Implementation := StringValue notificationCustomScriptImplementation;
  Notification.ConfigContract := StringValue notificationCustomScriptConfigContract;
  Notification.To := TNull; Notification.Cc := TNull; Notification.Bcc := TNull;
  Notification.From := TNull; Notification.Server := TNull;
  Notification.AppToken := TNull; Notification.Host := TNull;
  Notification.URLBase := TNull; Notification.Username := TNull;
  Notification.Password := TNull; Notification.Priority := TNull;
  Notification.Port := TNull; Notification.RequireEncryption := TNull;
  Notification.UseSSL := TNull; Notification.Notify := TNull;
  Notification.UpdateLibrary := TNull; Notification.OnAlbumDelete := TNull;
  Notification.OnArtistDelete := TNull |}.

(** [fromNotification] assigns every attribute of the receiver, so the
    result depends on the generic record only. *)
Definition fromNotification (g : Notification) : NotificationCustomScript := {|
  Tags := Notification.Tags g;
  Path := Notification.Path g;
  Arguments := Notification.Arguments g;
  Name := Notification.Name g;
  ID := Notification.ID g;
  OnGrab := Notification.OnGrab g;
  OnTrackRetag := Notification.OnTrackRetag g;
  OnDownloadFailure := Notification.OnDownloadFailure g;
  IncludeHealthWarnings := Notification.IncludeHealthWarnings g;
  OnApplicationUpdate := Notification.OnApplicationUpdate g;
  OnHealthIssue := Notification.OnHealthIssue g;
  OnHealthRestored := Notification.OnHealthRestored g;
  OnReleaseImport := Notification.OnReleaseImport g;
  OnRename := Notification.OnRename g;
  OnUpgrade := Notification.OnUpgrade g;
  OnImportFailure := Notification.OnImportFailure g |}.
Definition write `{NotificationCodec} (n : NotificationCustomScript) (r : NotificationResource) : NotificationCustomScript :=
  fromNotification (Notification_write (toNotification n) r).

Definition read `{NotificationCodec} (n : NotificationCustomScript) : NotificationResource :=
  Notification_read (toNotification n).
End NotificationCustomScript.

(** notification_gotify_resource.go *)
Module NotificationGotify.
Definition notificationGotifyResourceName := "notification_gotify".
Definition notificationGotifyImplementation := "Gotify".
Definition notificationGotifyConfigContract := "GotifySettings".

Record NotificationGotify : Type := mk {
  Tags : tfvalue (list Z);
  Server : tfvalue string;
  Name : tfvalue string;
  AppToken : tfvalue string;
  Priority : tfvalue Z;
  ID : tfvalue Z;
  OnGrab : tfvalue bool;
  OnReleaseImport : tfvalue bool;
  OnAlbumDelete : tfvalue bool;
  OnArtistDelete : tfvalue bool;
  IncludeHealthWarnings : tfvalue bool;
  OnApplicationUpdate : tfvalue bool;
  OnHealthIssue : tfvalue bool;
  OnHealthRestored : tfvalue bool;
  OnDownloadFailure : tfvalue bool;
  OnUpgrade : tfvalue bool;
  OnImportFailure : tfvalue bool
}.

Definition toNotification (n : NotificationGotify) : Notification := {|
  Notification.Tags := Tags n;
  Notification.Server := Server n;
  Notification.AppToken := AppToken n;
  Notification.Priority := Priority n;
  Notification.Name := Name n;
  Notification.ID := ID n;
  Notification.OnGrab := OnGrab n;
  Notification.OnReleaseImport := OnReleaseImport n;
  Notification.OnAlbumDelete := OnAlbumDelete n;
  Notification.OnArtistDelete := OnArtistDelete n;
  Notification.IncludeHealthWarnings := IncludeHealthWarnings n;
  Notification.OnApplicationUpdate := OnApplicationUpdate n;
  Notification.OnHealthIssue := OnHealthIssue n;
  Notification.OnHealthRestored := OnHealthRestored n;
  Notification.OnDownloadFailure := OnDownloadFailure n;
  Notification.OnUpgrade := OnUpgrade n;
  Notification.OnImportFailure := OnImportFailure n;
  Notification.Implementation := StringValue notificationGotifyImplementation;
  Notification.ConfigContract := StringValue notificationGotifyConfigContract;
  Notification.To := TNull; Notification.Cc := TNull; Notification.Bcc := TNull;
  Notification.From := TNull; Notification.Path := TNull;
  Notification.Arguments := TNull; Notification.Host := TNull;
  Notification.URLBase := TNull; Notification.Username := TNull;
  Notification.Password := TNull; Notification.Port := TNull;
  Notification.RequireEncryption := TNull; Notification.UseSSL := TNull;
  Notification.Notify := TNull; Notification.UpdateLibrary := TNull;
  Notification.OnRename := TNull; Notification.OnTrackRetag := TNull |}.

Definition fromNotification (g : Notification) : NotificationGotify := {|
  Tags := Notification.Tags g;
  Server := Notification.Server g;
  AppToken := Notification.AppToken g;
  Priority := Notification.Priority g;
  Name := Notification.Name g;
  ID := Notification.ID g;
  OnGrab := Notification.OnGrab g;
  OnReleaseImport := Notification.OnReleaseImport g;
  OnAlbumDelete := Notification.OnAlbumDelete g;
  OnArtistDelete := Notification.OnArtistDelete g;
  IncludeHealthWarnings := Notification.IncludeHealthWarnings g;
  OnApplicationUpdate := Notification.OnApplicationUpdate g;
  OnHealthIssue := Notification.OnHealthIssue g;
  OnHealthRestored := Notification.OnHealthRestored g;
  OnDownloadFailure := Notification.OnDownloadFailure g;
  OnUpgrade := Notification.OnUpgrade g;
  OnImportFailure := Notification.OnImportFailure g |}.
Definition write `{NotificationCodec} (n : NotificationGotify) (r : NotificationResource) : NotificationGotify :=
  fromNotification (Notification_write (toNotification n) r).

Definition read `{NotificationCodec} (n : NotificationGotify) : NotificationResource :=
  Notification_read (toNotification n).
End NotificationGotify.

(** notification_email_resource.go *)
Module NotificationEmail.
Definition notificationEmailResourceName := "notification_email".
Definition notificationEmailImplementation := "Email".
Definition notificationEmailConfigContract := "EmailSettings".

Record NotificationEmail : Type := mk {
  Tags : tfvalue (list Z);
  To : tfvalue (list string);
  Cc : tfvalue (list string);
  Bcc : tfvalue (list string);
  From : tfvalue string;
  Server : tfvalue string;
  Name : tfvalue string;
  Username : tfvalue string;
  Password : tfvalue string;
  ID : tfvalue Z;
  Port : tfvalue Z;
  RequireEncryption : tfvalue bool;
  OnGrab : tfvalue bool;
  OnReleaseImport : tfvalue bool;
  IncludeHealthWarnings : tfvalue bool;
  OnApplicationUpdate : tfvalue bool;
  OnHealthIssue : tfvalue bool;
  OnDownloadFailure : tfvalue bool;
  OnUpgrade : tfvalue bool;
  OnImportFailure : tfvalue bool
}.

(** This adapter's [toNotification] leaves [Implementation] and
    [ConfigContract] null; its [read] sets them on the request. *)
Definition toNotification (n : NotificationEmail) : Notification := {|
  Notification.Tags := Tags n;
  Notification.From := From n;
  Notification.To := To n;
  Notification.Cc := Cc n;
  Notification.Bcc := Bcc n;
  Notification.Server := Server n;
  Notification.Port := Port n;
  Notification.Username := Username n;
  Notification.Password := Password n;
  Notification.Name := Name n;
  Notification.ID := ID n;
  Notification.RequireEncryption := RequireEncryption n;
  Notification.OnGrab := OnGrab n;
  Notification.OnReleaseImport := OnReleaseImport n;
  Notification.IncludeHealthWarnings := IncludeHealthWarnings n;
  Notification.OnApplicationUpdate := OnApplicationUpdate n;
  Notification.OnHealthIssue := OnHealthIssue n;
  Notification.OnDownloadFailure := OnDownloadFailure n;
  Notification.OnUpgrade := OnUpgrade n;
  Notification.OnImportFailure := OnImportFailure n;
  Notification.AppToken := TNull; Notification.Path := TNull;
  Notification.Arguments := TNull; Notification.Host := TNull;
  Notification.URLBase := TNull; Notification.Implementation := TNull;
  Notification.ConfigContract := TNull; Notification.Priority := TNull;
  Notification.UseSSL := TNull; Notification.Notify := TNull;
  Notification.UpdateLibrary := TNull; Notification.OnRename := TNull;
  Notification.OnAlbumDelete := TNull; Notification.OnArtistDelete := TNull;
  Notification.OnHealthRestored := TNull; Notification.OnTrackRetag := TNull |}.

Definition fromNotification (g : Notification) : NotificationEmail := {|
  Tags := Notification.Tags g;
  From := Notification.From g;
  To := Notification.To g;
  Cc := Notification.Cc g;
  Bcc := Notification.Bcc g;
  Server := Notification.Server g;
  Port := Notification.Port g;
  Username := Notification.Username g;
  Password := Notification.Password g;
  Name := Notification.Name g;
  ID := Notification.ID g;
  RequireEncryption := Notification.RequireEncryption g;
  OnGrab := Notification.OnGrab g;
  OnReleaseImport := Notification.OnReleaseImport g;
  IncludeHealthWarnings := Notification.IncludeHealthWarnings g;
  OnApplicationUpdate := Notification.OnApplicationUpdate g;
  OnHealthIssue := Notification.OnHealthIssue g;
  OnDownloadFailure := Notification.OnDownloadFailure g;
  OnUpgrade := Notification.OnUpgrade g;
  OnImportFailure := Notification.OnImportFailure g |}.
(** [write] builds a fresh generic record from the response; the receiver's
    previous attributes are all overwritten by [fromNotification]. *)
Definition write `{NotificationCodec} (n : NotificationEmail) (r : NotificationResource) : NotificationEmail :=
  let genericNotification := {|
    Notification.OnGrab := TKnown (WOnGrab r);
    Notification.OnImportFailure := TKnown (WOnImportFailure r);
    Notification.OnUpgrade := TKnown (WOnUpgrade r);
    Notification.OnDownloadFailure := TKnown (WOnDownloadFailure r);
    Notification.OnReleaseImport := TKnown (WOnReleaseImport r);
    Notification.OnHealthIssue := TKnown (WOnHealthIssue r);
    Notification.OnApplicationUpdate := TKnown (WOnApplicationUpdate r);
    Notification.IncludeHealthWarnings := TKnown (WIncludeHealthWarnings r);
    Notification.ID := TKnown (Id r);
    Notification.Name := TKnown (WName r);
    Notification.Tags := TKnown (WTags r);
    Notification.To := TNull; Notification.Cc := TNull; Notification.Bcc := TNull;
    Notification.From := TNull; Notification.Server := TNull;
    Notification.AppToken := TNull; Notification.Path := TNull;
    Notification.Arguments := TNull; Notification.Host := TNull;
    Notification.URLBase := TNull; Notification.Username := TNull;
    Notification.Password := TNull; Notification.Implementation := TNull;
    Notification.ConfigContract := TNull; Notification.Priority := TNull;
    Notification.Port := TNull; Notification.RequireEncryption := TNull;
    Notification.UseSSL := TNull; Notification.Notify := TNull;
    Notification.UpdateLibrary := TNull; Notification.OnRename := TNull;
    Notification.OnAlbumDelete := TNull; Notification.OnArtistDelete := TNull;
    Notification.OnHealthRestored := TNull; Notification.OnTrackRetag := TNull |} in
  fromNotification (writeFields genericNotification (Fields r)).

(** [read]: the request is built here, with the adapter's constant
    identity pair; flags the literal does not name are Go's [false]. *)
Definition read `{NotificationCodec} (n : NotificationEmail) : NotificationResource := {|
  WOnGrab := ValueBool (OnGrab n);
  WOnImportFailure := ValueBool (OnImportFailure n);
  WOnUpgrade := ValueBool (OnUpgrade n);
  WOnDownloadFailure := ValueBool (OnDownloadFailure n);
  WOnReleaseImport := ValueBool (OnReleaseImport n);
  WOnHealthIssue := ValueBool (OnHealthIssue n);
  WOnApplicationUpdate := ValueBool (OnApplicationUpdate n);
  WIncludeHealthWarnings := ValueBool (IncludeHealthWarnings n);
  WConfigContract := notificationEmailConfigContract;
  WImplementation := notificationEmailImplementation;
  Id := ValueInt64 (ID n);
  WName := ValueString (Name n);
  WTags := ValueAs (Tags n);
  Fields := readFields (toNotification n);
  WOnRename := false; WOnAlbumDelete := false; WOnArtistDelete := false;
  WOnHealthRestored := false; WOnTrackRetag := false |}.
End NotificationEmail.

(** notification_subsonic_resource.go *)
Module NotificationSubsonic.
Definition notificationSubsonicResourceName := "notification_subsonic".
Definition notificationSubsonicImplementation := "Xbmc".
Definition notificationSubsonicConfigContract := "XbmcSettings".

Record NotificationSubsonic : Type := mk {
  Tags : tfvalue (list Z);
  Host : tfvalue string;
  Name : tfvalue string;
  Username : tfvalue string;
  Password : tfvalue string;
  URLBase : tfvalue string;
  Port : tfvalue Z;
  ID : tfvalue Z;
  OnGrab : tfvalue bool;
  UseSSL : tfvalue bool;
  Notify : tfvalue bool;
  UpdateLibrary : tfvalue bool;
  OnReleaseImport : tfvalue bool;
  OnTrackRetag : tfvalue bool;
  OnRename : tfvalue bool;
  IncludeHealthWarnings : tfvalue bool;
  OnHealthIssue : tfvalue bool;
  OnUpgrade : tfvalue bool
}.

Definition toNotification (n : NotificationSubsonic) : Notification := {|
  Notification.Tags := Tags n;
  Notification.Port := Port n;
  Notification.Host := Host n;
  Notification.URLBase := URLBase n;
  Notification.Password := Password n;
  Notification.Username := Username n;
  Notification.Name := Name n;
  Notification.ID := ID n;
  Notification.UseSSL := UseSSL n;
  Notification.Notify := Notify n;
  Notification.UpdateLibrary := UpdateLibrary n;
  Notification.OnGrab := OnGrab n;
  Notification.OnReleaseImport := OnReleaseImport n;
  Notification.OnRename := OnRename n;
  Notification.OnTrackRetag := OnTrackRetag n;
  Notification.IncludeHealthWarnings := IncludeHealthWarnings n;
  Notification.OnHealthIssue := OnHealthIssue n;
  Notification.OnUpgrade := OnUpgrade n;
  Notification.To := TNull; Notification.Cc := TNull; Notification.Bcc := TNull;
  Notification.From := TNull; Notification.Server := TNull;
  Notification.AppToken := TNull; Notification.Path := TNull;
  Notification.Arguments := TNull; Notification.Implementation := TNull;
  Notification.ConfigContract := TNull; Notification.Priority := TNull;
  Notification.RequireEncryption := TNull; Notification.OnAlbumDelete := TNull;
  Notification.OnArtistDelete := TNull; Notification.OnHealthRestored := TNull;
  Notification.OnDownloadFailure := TNull; Notification.OnImportFailure := TNull;
  Notification.OnApplicationUpdate := TNull |}.

Definition fromNotification (g : Notification) : NotificationSubsonic := {|
  Tags := Notification.Tags g;
  Port := Notification.Port g;
  URLBase := Notification.URLBase g;
  Host := Notification.Host g;
  Password := Notification.Password g;
  Username := Notification.Username g;
  Name := Notification.Name g;
  ID := Notification.ID g;
  UseSSL := Notification.UseSSL g;
  Notify := Notification.Notify g;
  UpdateLibrary := Notification.UpdateLibrary g;
  OnGrab := Notification.OnGrab g;
  OnReleaseImport := Notification.OnReleaseImport g;
  OnTrackRetag := Notification.OnTrackRetag g;
  IncludeHealthWarnings := Notification.IncludeHealthWarnings g;
  OnHealthIssue := Notification.OnHealthIssue g;
  OnRename := Notification.OnRename g;
  OnUpgrade := Notification.OnUpgrade g |}.
Definition write `{NotificationCodec} (n : NotificationSubsonic) (r : NotificationResource) : NotificationSubsonic :=
  let genericNotification := {|
    Notification.OnGrab := TKnown (WOnGrab r);
    Notification.OnUpgrade := TKnown (WOnUpgrade r);
    Notification.OnRename := TKnown (WOnRename r);
    Notification.OnTrackRetag := TKnown (WOnTrackRetag r);
    Notification.OnReleaseImport := TKnown (WOnReleaseImport r);
    Notification.OnHealthIssue := TKnown (WOnHealthIssue r);
    Notification.IncludeHealthWarnings := TKnown (WIncludeHealthWarnings r);
    Notification.ID := TKnown (Id r);
    Notification.Name := TKnown (WName r);
    Notification.Tags := TKnown (WTags r);
    Notification.To := TNull; Notification.Cc := TNull; Notification.Bcc := TNull;
    Notification.From := TNull; Notification.Server := TNull;
    Notification.AppToken := TNull; Notification.Path := TNull;
    Notification.Arguments := TNull; Notification.Host := TNull;
    Notification.URLBase := TNull; Notification.Username := TNull;
    Notification.Password := TNull; Notification.Implementation := TNull;
    Notification.ConfigContract := TNull; Notification.Priority := TNull;
    Notification.Port := TNull; Notification.RequireEncryption := TNull;
    Notification.UseSSL := TNull; Notification.Notify := TNull;
    Notification.UpdateLibrary := TNull; Notification.OnAlbumDelete := TNull;
    Notification.OnArtistDelete := TNull; Notification.OnHealthRestored := TNull;
    Notification.OnDownloadFailure := TNull; Notification.OnImportFailure := TNull;
    Notification.OnApplicationUpdate := TNull |} in
  fromNotification (writeFields genericNotification (Fields r)).

(** [read]: [lidarr.NewNotificationResource()] followed by the setters;
    getters of unset flags return [false]. *)
Definition read `{NotificationCodec} (n : NotificationSubsonic) : NotificationResource := {|
  WOnGrab := ValueBool (OnGrab n);
  WOnUpgrade := ValueBool (OnUpgrade n);
  WOnRename := ValueBool (OnRename n);
  WOnTrackRetag := ValueBool (OnTrackRetag n);
  WOnReleaseImport := ValueBool (OnReleaseImport n);
  WOnHealthIssue := ValueBool (OnHealthIssue n);
  WIncludeHealthWarnings := ValueBool (IncludeHealthWarnings n);
  WConfigContract := notificationSubsonicConfigContract;
  WImplementation := notificationSubsonicImplementation;
  Id := int32_of (ValueInt64 (ID n));
  WName := ValueString (Name n);
  WTags := ValueAs (Tags n);
  Fields := readFields (toNotification n);
  WOnAlbumDelete := false; WOnArtistDelete := false; WOnHealthRestored := false;
  WOnDownloadFailure := false; WOnImportFailure := false;
  WOnApplicationUpdate := false |}.
End NotificationSubsonic.

(** ** The remote notification API (external collaborator, §6).
    A Lidarr server holds the notification records keyed by [Id]; when it
    is unreachable every call fails with a transport error, and a lookup,
    update or delete of an unknown id answers 404.  Every call the provider
    issues is appended to [log], so that the outgoing requests can be
    inspected. *)
Inductive ClientError : Type :=
| NotFound
| Transport (msg : string).

Definition error_text (e : ClientError) : string :=
  match e with NotFound => "404 Not Found" | Transport m => m end.

Inductive Result (A : Type) : Type :=
| Ok (a : A)
| Err (e : ClientError).
Arguments Ok {A} _.
Arguments Err {A} _.

Inductive Call : Type :=
| CallCreate (r : NotificationResource)
| CallGet (id : Z)
| CallUpdate (id : Z) (r : NotificationResource)
| CallDelete (id : Z)
| CallList.

Record RemoteServer : Type := mkServer {
  online : bool;
  records : list NotificationResource;
  next_id : Z;
  log : list Call
}.

Definition set_Id (r : NotificationResource) (id : Z) : NotificationResource := {|
  Id := id; WName := WName r; WImplementation := WImplementation r;
  WConfigContract := WConfigContract r; WTags := WTags r; Fields := Fields r;
  WOnGrab := WOnGrab r; WOnReleaseImport := WOnReleaseImport r;
  WOnUpgrade := WOnUpgrade r; WOnRename := WOnRename r;
  WOnAlbumDelete := WOnAlbumDelete r; WOnArtistDelete := WOnArtistDelete r;
  WOnHealthIssue := WOnHealthIssue r; WOnHealthRestored := WOnHealthRestored r;
  WOnDownloadFailure := WOnDownloadFailure r;
  WOnImportFailure := WOnImportFailure r; WOnTrackRetag := WOnTrackRetag r;
  WOnApplicationUpdate := WOnApplicationUpdate r;
  WIncludeHealthWarnings := WIncludeHealthWarnings r |}.

Definition log_call (s : RemoteServer) (c : Call) : RemoteServer :=
  mkServer (online s) (records s) (next_id s) (log s ++ [c]).

Definition set_records (s : RemoteServer) (l : list NotificationResource) : RemoteServer :=
  mkServer (online s) l (next_id s) (log s).

Definition has_id (id : Z) (r : NotificationResource) : bool := Id r =? id.

Definition unreachable := "dial tcp: connection refused".

Definition CreateNotification (s : RemoteServer) (r : NotificationResource)
  : RemoteServer * Result NotificationResource :=
  let s := log_call s (CallCreate r) in
  if negb (online s) then (s, Err (Transport unreachable)) else
  let stored := set_Id r (next_id s) in
  (mkServer true (records s ++ [stored]) (next_id s + 1) (log s), Ok stored).

Definition GetNotificationById (s : RemoteServer) (id : Z)
  : RemoteServer * Result NotificationResource :=
  let s := log_call s (CallGet id) in
  if negb (online s) then (s, Err (Transport unreachable)) else
  match find (has_id id) (records s) with
  | Some r => (s, Ok r)
  | None => (s, Err NotFound)
  end.

Definition UpdateNotification (s : RemoteServer) (id : Z) (r : NotificationResource)
  : RemoteServer * Result NotificationResource :=
  let s := log_call s (CallUpdate id r) in
  if negb (online s) then (s, Err (Transport unreachable)) else
  if existsb (has_id id) (records s) then
    let stored := set_Id r id in
    (set_records s (map (fun x => if has_id id x then stored else x) (records s)), Ok stored)
  else (s, Err NotFound).

Definition DeleteNotification (s : RemoteServer) (id : Z) : RemoteServer * Result unit :=
  let s := log_call s (CallDelete id) in
  if negb (online s) then (s, Err (Transport unreachable)) else
  if existsb (has_id id) (records s) then
    (set_records s (filter (fun x => negb (has_id id x)) (records s)), Ok tt)
  else (s, Err NotFound).

Definition ListNotification (s : RemoteServer) : RemoteServer * Result (list NotificationResource) :=
  let s := log_call s CallList in
  if negb (online s) then (s, Err (Transport unreachable)) else (s, Ok (records s)).

(** ** Diagnostics and responses of the plugin framework. *)
Inductive Diagnostic : Type :=
| DiagError (summary detail : string)
| DiagAttributeError (attr summary detail : string)
| DiagWarning (summary detail : string).

Definition is_error (d : Diagnostic) : bool :=
  match d with DiagWarning _ _ => false | _ => true end.
Definition HasError (ds : list Diagnostic) : bool := existsb is_error ds.

(** What a method leaves in [resp.State]: the prior value (for Create: no
    state at all), a new value, or the resource removed. *)
Inductive StateUpdate (T : Type) : Type :=
| Keep
| SetState (t : T)
| Removed.
Arguments Keep {T}.
Arguments SetState {T} _.
Arguments Removed {T}.

Record Outcome (T : Type) : Type := mkOutcome {
  server_after : RemoteServer;
  diagnostics : list Diagnostic;
  new_state : StateUpdate T
}.
Arguments mkOutcome {T} _ _ _.
Arguments server_after {T} _.
Arguments diagnostics {T} _.
Arguments new_state {T} _.

(** Modelled from the spec: the constants and [ParseClientError] of the
    internal/helpers package (not in this snapshot), which label a failed
    remote call with the operation name passed in and the resource kind;
    the message format is the one the starr-based resources spell out. *)
Definition helpers_ClientError := "Client Error".
Definition helpers_Create := "create".
Definition helpers_Read := "read".
Definition helpers_Update := "update".
Definition helpers_Delete := "delete".
Definition ParseClientError (action name : string) (e : ClientError) : string :=
  "Unable to " ++ action ++ " " ++ name ++ ", got error: " ++ error_text e.

(** ** Reconciliation lifecycle of a notification resource.
    Every notification resource's Create, Read, Update and Delete have the
    same shape; they differ in the adapter's [read]/[write], the id
    conversion before Get and Delete, how a client error is turned into a
    diagnostic, and the operation name each method passes to it.
    The methods are modelled from the point where [req.Plan.Get] or
    [req.State.Get] has decoded the value without error.  The
    diagnostics that gotify's [read] (before the Create or Update call)
    and [write] (after a successful call) append to [&resp.Diagnostics],
    and those of [resp.State.Set], are not modelled: [diagnostics] holds
    the ones the method adds itself.  Read and Delete call none of them
    before the remote call, so their diagnostics on a failed call are
    exactly the modelled ones. *)
Record ResourceAdapter (T : Type) : Type := mkAdapter {
  resource_read : T -> NotificationResource;
  resource_write : T -> NotificationResource -> T;
  wire_id : T -> Z;
  report : string -> ClientError -> Diagnostic;
  create_label : string;
  read_label : string;
  update_label : string;
  delete_label : string
}.
Arguments mkAdapter {T} _ _ _ _ _ _ _ _.
Arguments resource_read {T} _ _.
Arguments resource_write {T} _ _ _.
Arguments wire_id {T} _ _.
Arguments report {T} _ _ _.
Arguments create_label {T} _.
Arguments read_label {T} _.
Arguments update_label {T} _.
Arguments delete_label {T} _.

Section Lifecycle.
Context {T : Type} (a : ResourceAdapter T).

Definition Create (plan : T) (s : RemoteServer) : Outcome T :=
  let request := resource_read a plan in
  let '(s', res) := CreateNotification s request in
  match res with
  | Err e => mkOutcome s' [report a (create_label a) e] Keep
  | Ok response => mkOutcome s' [] (SetState (resource_write a plan response))
  end.

Definition Read (st : T) (s : RemoteServer) : Outcome T :=
  let '(s', res) := GetNotificationById s (wire_id a st) in
  match res with
  | Err e => mkOutcome s' [report a (read_label a) e] Keep
  | Ok response => mkOutcome s' [] (SetState (resource_write a st response))
  end.

Definition Update (plan : T) (s : RemoteServer) : Outcome T :=
  let request := resource_read a plan in
  let '(s', res) := UpdateNotification s (Id request) request in
  match res with
  | Err e => mkOutcome s' [report a (update_label a) e] Keep
  | Ok response => mkOutcome s' [] (SetState (resource_write a plan response))
  end.

Definition Delete (st : T) (s : RemoteServer) : Outcome T :=
  let '(s', res) := DeleteNotification s (wire_id a st) in
  match res with
  | Err e => mkOutcome s' [report a (delete_label a) e] Keep
  | Ok _ => mkOutcome s' [] Removed
  end.
End Lifecycle.

(** [resp.Diagnostics.AddError(helpers.ClientError,
    helpers.ParseClientError(op, name, err))]. *)
Definition helpers_report (name : string) (op : string) (e : ClientError) : Diagnostic :=
  DiagError helpers_ClientError (ParseClientError op name e).

(** NotificationCustomScriptResource: Delete passes [helpers.Read]. *)
Definition NotificationCustomScriptResource `{NotificationCodec}
  : ResourceAdapter NotificationCustomScript.NotificationCustomScript :=
  mkAdapter NotificationCustomScript.read NotificationCustomScript.write
    (fun n => int32_of (ValueInt64 (NotificationCustomScript.ID n)))
    (helpers_report NotificationCustomScript.notificationCustomScriptResourceName)
    helpers_Create helpers_Read helpers_Update helpers_Read.

(** NotificationGotifyResource: Delete passes [helpers.Delete]. *)
Definition NotificationGotifyResource `{NotificationCodec}
  : ResourceAdapter NotificationGotify.NotificationGotify :=
  mkAdapter NotificationGotify.read NotificationGotify.write
    (fun n => int32_of (ValueInt64 (NotificationGotify.ID n)))
    (helpers_report NotificationGotify.notificationGotifyResourceName)
    helpers_Create helpers_Read helpers_Update helpers_Delete.

(** NotificationSubsonicResource: Delete passes [helpers.Read]. *)
Definition NotificationSubsonicResource `{NotificationCodec}
  : ResourceAdapter NotificationSubsonic.NotificationSubsonic :=
  mkAdapter NotificationSubsonic.read NotificationSubsonic.write
    (fun n => int32_of (ValueInt64 (NotificationSubsonic.ID n)))
    (helpers_report NotificationSubsonic.notificationSubsonicResourceName)
    helpers_Create helpers_Read helpers_Update helpers_Read.

(** NotificationEmailResource (starr client, int64 ids): every failure is
    reported as [tools.ClientError] with the message
    [fmt.Sprintf("Unable to <op> %s, got error: %s", name, err)], whose
    <op> is spelled in each method: create, read, update, and "read" again
    in Delete. *)
Definition tools_ClientError := "Client Error".
Definition email_report (op : string) (e : ClientError) : Diagnostic :=
  DiagError tools_ClientError
    ("Unable to " ++ op ++ " " ++ NotificationEmail.notificationEmailResourceName
     ++ ", got error: " ++ error_text e).

Definition NotificationEmailResource `{NotificationCodec}
  : ResourceAdapter NotificationEmail.NotificationEmail :=
  mkAdapter NotificationEmail.read NotificationEmail.write
    (fun n => ValueInt64 (NotificationEmail.ID n))
    email_report "create" "read" "update" "read".

(** ** Go's strconv on a 64-bit platform. *)
Inductive NumError : Type := ErrSyntax | ErrRange.

Definition byte_of (c : ascii) : Z := Z.of_nat (nat_of_ascii c).

(** [ParseUint(s, 10, 64)].  A letter gives a digit value >= 10 >= base,
    hence a syntax error like any other non-digit byte; [n1] is computed
    in uint64, with its wrap-around. *)
Definition maxUint64 : Z := 2 ^ 64 - 1.

Fixpoint ParseUint_loop (n : Z) (s : string) : Z * option NumError :=
  match s with
  | EmptyString => (n, None)
  | String c s' =>
      let b := byte_of c in
      if (48 <=? b) && (b <=? 57) then
        let d := b - 48 in
        if n >=? maxUint64 / 10 + 1 then (maxUint64, Some ErrRange) else
        let n := n * 10 in
        let n1 := (n + d) mod 2 ^ 64 in
        if (n1 <? n) || (n1 >? maxUint64) then (maxUint64, Some ErrRange)
        else ParseUint_loop n1 s'
      else (0, Some ErrSyntax)
  end.

Definition ParseUint (s : string) : Z * option NumError :=
  match s with
  | EmptyString => (0, Some ErrSyntax)
  | _ => ParseUint_loop 0 s
  end.

(** [ParseInt(s, 10, 0)] with [IntSize = 64]. *)
Definition ParseInt (s : string) : Z * option NumError :=
  match s with
  | EmptyString => (0, Some ErrSyntax)
  | String c rest =>
      let '(neg, s) :=
        if Ascii.eqb c "+"%char then (false, rest)
        else if Ascii.eqb c "-"%char then (true, rest) else (false, s) in
      let '(un, err) := ParseUint s in
      match err with
      | Some ErrSyntax => (0, Some ErrSyntax)
      | _ =>
        let cutoff := 2 ^ 63 in
        if negb neg && (un >=? cutoff) then (cutoff - 1, Some ErrRange)
        else if neg && (un >? cutoff) then (- cutoff, Some ErrRange)
        else ((if neg then - un else un), None)
      end
  end.

(** The fast path of [Atoi]: [ch -= '0'] on a byte wraps modulo 256. *)
Fixpoint Atoi_fast_loop (n : Z) (s : string) : option Z :=
  match s with
  | EmptyString => Some n
  | String c s' =>
      let ch := (byte_of c - 48) mod 256 in
      if ch >? 9 then None else Atoi_fast_loop (n * 10 + ch) s'
  end.

Definition Atoi (s : string) : Z + NumError :=
  let sLen := String.length s in
  match s with
  | String c rest =>
    if (sLen <? 19)%nat then
      let '(neg, s') :=
        if Ascii.eqb c "-"%char then (true, rest)
        else if Ascii.eqb c "+"%char then (false, rest) else (false, s) in
      match s' with
      | EmptyString => inr ErrSyntax
      | _ =>
        match Atoi_fast_loop 0 s' with
        | None => inr ErrSyntax
        | Some n => inl (if neg then - n else n)
        end
      end
    else
      let '(i64, err) := ParseInt s in
      match err with None => inl i64 | Some e => inr e end
  | EmptyString =>
      let '(i64, err) := ParseInt s in
      match err with None => inl i64 | Some e => inr e end
  end.

(** [strconv.Itoa] / [FormatInt(n, 10)]: the digits of |n|, most
    significant first, preceded by '-' for a negative number. *)
Definition digit_char (d : Z) : ascii := ascii_of_nat (48 + Z.to_nat d).

Fixpoint utoa (fuel : nat) (n : Z) (acc : string) : string :=
  match fuel with
  | O => acc
  | S f =>
      let acc := String (digit_char (n mod 10)) acc in
      if n <? 10 then acc else utoa f (n / 10) acc
  end.

Definition Itoa (n : Z) : string :=
  let u := Z.abs n in
  let digits := utoa (S (Z.to_nat (Z.log2 u))) u "" in
  if n <? 0 then String "-" digits else digits.

(** A decimal integer written as text: an optional sign, then one or more
    ASCII digits.  Used to state what "parses as a decimal integer" and
    "decimal string representation" mean. *)
Definition is_digit (c : ascii) : bool := (48 <=? byte_of c) && (byte_of c <=? 57).

Fixpoint digits_value (acc : Z) (s : string) : option Z :=
  match s with
  | EmptyString => Some acc
  | String c s' => if is_digit c then digits_value (acc * 10 + (byte_of c - 48)) s' else None
  end.

Definition decimal_integer (s : string) : option Z :=
  match s with
  | EmptyString => None
  | String c rest =>
      if Ascii.eqb c "-"%char then
        match rest with EmptyString => None | _ => option_map Z.opp (digits_value 0 rest) end
      else if Ascii.eqb c "+"%char then
        match rest with EmptyString => None | _ => digits_value 0 rest end
      else digits_value 0 s
  end.

(** [fmt.Sprintf("%q", s)], i.e. [strconv.Quote], on ASCII text: the
    text between double quotes; backslash and double quote are escaped,
    printable bytes kept, BEL, BS, FF, LF, CR, TAB and VT written as
    [\a \b \f \n \r \t \v], and the other control bytes and DEL as
    [\x] with two lower-case hex digits.  Bytes from 0x80 up, which
    Quote decodes as UTF-8 and checks against Unicode's printable
    classes, are kept as they are. *)
Definition dquote : ascii := ascii_of_nat 34.
Definition backslash : ascii := ascii_of_nat 92.
Definition lower_hex (n : nat) : ascii :=
  ascii_of_nat (if Nat.ltb n 10 then 48 + n else 87 + n).
Definition escaped (c : ascii) (rest : string) : string := String backslash (String c rest).
Fixpoint quote_body (s : string) : string :=
  match s with
  | EmptyString => EmptyString
  | String c s' =>
      let n := nat_of_ascii c in
      let rest := quote_body s' in
      if Ascii.eqb c dquote || Ascii.eqb c backslash then escaped c rest
      else if Nat.leb 32 n && Nat.ltb n 127 then String c rest
      else if Nat.eqb n 7 then escaped "a"%char rest
      else if Nat.eqb n 8 then escaped "b"%char rest
      else if Nat.eqb n 12 then escaped "f"%char rest
      else if Nat.eqb n 10 then escaped "n"%char rest
      else if Nat.eqb n 13 then escaped "r"%char rest
      else if Nat.eqb n 9 then escaped "t"%char rest
      else if Nat.eqb n 11 then escaped "v"%char rest
      else if Nat.ltb n 128 then
        escaped "x"%char (String (lower_hex (n / 16)) (String (lower_hex (n mod 16)) rest))
      else String c rest
  end.
Definition go_quote (s : string) : string :=
  String dquote (quote_body s ++ String dquote EmptyString).

(** NotificationEmailResource.ImportState: the identifier is parsed with
    [strconv.Atoi]; on success the [id] attribute is set, otherwise an
    error is added.  The method does not use the client. *)
Definition tools_UnexpectedImportIdentifier := "Unexpected Import Identifier".

Definition NotificationEmailResource_ImportState (reqID : string) (s : RemoteServer)
  : Outcome (tfvalue Z) :=
  match Atoi reqID with
  | inr _ =>
      mkOutcome s
        [DiagError tools_UnexpectedImportIdentifier
           ("Expected import identifier with format: ID. Got: " ++ go_quote reqID)]
        Keep
  | inl id => mkOutcome s [] (SetState (TKnown id))
  end.

(** ** The notifications data source (notifications_data_source.go). *)
Definition notificationsDataSourceName := "notifications".

Record Notifications : Type := mkNotifications {
  NotificationsSet : tfvalue (list Notification);
  NotificationsID : tfvalue string
}.

(** [Read]: list all notifications; each element of [profiles] starts as
    the zero [Notification] and is filled by the generic [write]; the id is
    [strconv.Itoa(len(response))]. *)
Definition NotificationsDataSource_Read `{NotificationCodec} (data : Notifications) (s : RemoteServer)
  : Outcome Notifications :=
  let '(s', res) := ListNotification s in
  match res with
  | Err e => mkOutcome s' [helpers_report notificationsDataSourceName helpers_Read e] Keep
  | Ok response =>
      let profiles := map (fun p => Notification_write Notification.zero p) response in
      mkOutcome s' []
        (SetState (mkNotifications (TKnown profiles)
                     (StringValue (Itoa (Z.of_nat (List.length response))))))
  end.

(** ** Schema validation of the gotify resource.
    [int64validator.OneOf(0, 2, 5, 8)] on [priority]: a null or unknown
    value is not checked; a known value outside the list is an attribute
    error. *)
Fixpoint show_values (l : list Z) : string :=
  match l with
  | [] => ""
  | [x] => go_quote (Itoa x)
  | x :: l' => go_quote (Itoa x) ++ " " ++ show_values l'
  end.

Definition OneOf (values : list Z) (attr : string) (v : tfvalue Z) : list Diagnostic :=
  match v with
  | TKnown z =>
      if existsb (Z.eqb z) values then []
      else [DiagAttributeError attr "Invalid Attribute Value Match"
              ("Attribute " ++ attr ++ " value must be one of: [" ++ show_values values
               ++ "], got: " ++ Itoa z)]
  | _ => []
  end.

(** The validators of NotificationGotifyResource's schema: only
    [priority] carries one. *)
Definition NotificationGotify_ValidateConfig (cfg : NotificationGotify.NotificationGotify) : list Diagnostic :=
  OneOf [0; 2; 5; 8] "priority" (NotificationGotify.Priority cfg).

(** The framework validates the configuration against the schema and
    only calls Create (or Update) when no error was found. *)
Definition ApplyCreate {T} (validate : T -> list Diagnostic) (a : ResourceAdapter T)
  (cfg : T) (s : RemoteServer) : Outcome T :=
  let d := validate cfg in
  if HasError d then mkOutcome s d Keep else Create a cfg s.

Definition ApplyUpdate {T} (validate : T -> list Diagnostic) (a : ResourceAdapter T)
  (cfg : T) (s : RemoteServer) : Outcome T :=
  let d := validate cfg in
  if HasError d then mkOutcome s d Keep else Update a cfg s.

(** ** Configure of a resource or data source (starr client).
    [req.ProviderData] is nil until the provider has been configured. *)
Record LidarrClient : Type := mkClient { client_url : string; client_api_key : string }.

Inductive ProviderData : Type :=
| PDLidarr (c : LidarrClient)
| PDOther (go_type : string).

Definition tools_UnexpectedResourceConfigureType := "Unexpected Resource Configure Type".
Definition tools_UnexpectedDataSourceConfigureType := "Unexpected DataSource Configure Type".

Definition configure_with (summary : string) (req : option ProviderData)
  (client : option LidarrClient) : option LidarrClient * list Diagnostic :=
  match req with
  | None => (client, [])
  | Some (PDLidarr c) => (Some c, [])
  | Some (PDOther t) =>
      (client, [DiagError summary ("Expected *lidarr.Lidarr, got: " ++ t
                 ++ ". Please report this issue to the provider developers.")])
  end.

Definition NotificationEmailResource_Configure := configure_with tools_UnexpectedResourceConfigureType.
Definition IndexerDataSource_Configure := configure_with tools_UnexpectedDataSourceConfigureType.

(** ** The single-indexer data source (indexer_data_source.go). *)
Definition indexerDataSourceName := "indexer".

Record IndexerOutput : Type := mkIndexer {
  IndexerID : Z;
  IndexerName : string;
  IndexerImplementation : string;
  IndexerConfigContract : string;
  IndexerPriority : Z
}.

(** [tools.ErrDataNotFoundError(kind, field, search)]. *)
Record DataNotFoundError : Type := mkDataNotFound { nf_kind : string; nf_field : string; nf_search : string }.

Fixpoint findIndexer (name : string) (indexers : list IndexerOutput) : IndexerOutput + DataNotFoundError :=
  match indexers with
  | [] => inr (mkDataNotFound indexerDataSourceName "name" name)
  | i :: rest => if String.eqb (IndexerName i) name then inl i else findIndexer name rest
  end.

(** [IndexerDataSource.Read].  The [Indexer] model and its [write] live in
    indexer_resource.go, which is not in this snapshot, as do the
    [tools.DataSourceError] summary and the text of
    [tools.ErrDataNotFoundError]; they are parameters here.  The name
    searched for is [data.Name.ValueString()], so a null name searches for
    the empty string. *)
Section IndexerRead.
Context {Indexer : Type}
  (Indexer_Name : Indexer -> tfvalue string)
  (Indexer_write : Indexer -> IndexerOutput -> Indexer)
  (tools_DataSourceError : string)
  (not_found_text : DataNotFoundError -> string).

Definition IndexerDataSource_Read (data : Indexer) (response : Result (list IndexerOutput))
  : list Diagnostic * StateUpdate Indexer :=
  match response with
  | Err e =>
      ([DiagError tools_ClientError
          ("Unable to read " ++ indexerDataSourceName ++ ", got error: " ++ error_text e)], Keep)
  | Ok indexers =>
      match findIndexer (ValueString (Indexer_Name data)) indexers with
      | inr err =>
          ([DiagError tools_DataSourceError
              ("Unable to find " ++ indexerDataSourceName ++ ", got error: " ++ not_found_text err)],
           Keep)
      | inl indexer => ([], SetState (Indexer_write data indexer))
      end
  end.
End IndexerRead.

(** ** The custom format resource (custom_format_resource.go). *)
Definition customFormatResourceName := "custom_format".

(** [lidarr.CustomFormatResource] as the adapter uses it: the getters of
    unset attributes return the zero value. *)
Record CustomFormatResource (Spec : Type) : Type := mkCustomFormatResource {
  cf_Id : Z;
  cf_Name : string;
  cf_IncludeCustomFormatWhenRenaming : bool;
  cf_Specifications : list Spec
}.
Arguments mkCustomFormatResource {Spec} _ _ _ _.
Arguments cf_Id {Spec} _.
Arguments cf_Name {Spec} _.
Arguments cf_IncludeCustomFormatWhenRenaming {Spec} _.
Arguments cf_Specifications {Spec} _.

Module CustomFormat.
Record CustomFormat (Condition : Type) : Type := mk {
  Specifications : tfvalue (list Condition);
  Name : tfvalue string;
  ID : tfvalue Z;
  IncludeCustomFormatWhenRenaming : tfvalue bool
}.
Arguments mk {Condition} _ _ _ _.
Arguments Specifications {Condition} _.
Arguments Name {Condition} _.
Arguments ID {Condition} _.
Arguments IncludeCustomFormatWhenRenaming {Condition} _.

(** [CustomFormatCondition]'s own [write] and [read] (custom format
    condition code, not in this snapshot) are parameters. *)
Section Conditions.
Context {Condition Spec : Type}
  (condition_write : Spec -> Condition)
  (condition_read : Condition -> Spec).

(** [write] is called on a fresh [var state CustomFormat]: every
    attribute comes from the response. *)
Definition write (customFormat : CustomFormatResource Spec) : CustomFormat Condition :=
  mk (TKnown (map condition_write (cf_Specifications customFormat)))
     (TKnown (cf_Name customFormat))
     (TKnown (cf_Id customFormat))
     (TKnown (cf_IncludeCustomFormatWhenRenaming customFormat)).

(** [read]: [SetId(int32(c.ID.ValueInt64()))]. *)
Definition read (c : CustomFormat Condition) : CustomFormatResource Spec :=
  mkCustomFormatResource
    (int32_of (ValueInt64 (ID c)))
    (ValueString (Name c))
    (ValueBool (IncludeCustomFormatWhenRenaming c))
    (map condition_read (ValueAs (Specifications c))).
End Conditions.
End CustomFormat.

(** [CustomFormatResource.Read], once [req.State.Get] has decoded the
    state: [GetCustomFormatById] is the client's custom format endpoint,
    called with [int32(client.ID.ValueInt64())]; a client error is
    reported with [helpers.Read] and the method returns, otherwise the
    state is written afresh from the response. *)
Definition CustomFormatResource_Read {Condition Spec : Type}
  (condition_write : Spec -> Condition)
  (GetCustomFormatById : Z -> Result (CustomFormatResource Spec))
  (client : CustomFormat.CustomFormat Condition)
  : list Diagnostic * StateUpdate (CustomFormat.CustomFormat Condition) :=
  match GetCustomFormatById (int32_of (ValueInt64 (CustomFormat.ID client))) with
  | Err e =>
      ([DiagError helpers_ClientError (ParseClientError helpers_Read customFormatResourceName e)], Keep)
  | Ok response => ([], SetState (CustomFormat.write condition_write response))
  end.

(** ** Type names: every resource and data source answers [Metadata] with
    [req.ProviderTypeName + "_" + <its name constant>]. *)
Definition Metadata (name providerTypeName : string) : string :=
  providerTypeName ++ "_" ++ name.

Definition resource_names : list string :=
  [NotificationCustomScript.notificationCustomScriptResourceName;
   NotificationGotify.notificationGotifyResourceName;
   NotificationEmail.notificationEmailResourceName;
   NotificationSubsonic.notificationSubsonicResourceName;
   customFormatResourceName].

Definition data_source_names : list string :=
  [indexerDataSourceName; notificationsDataSourceName].

(** ** The provider (provider.go). *)

(** [providerData]: the provider block.  This framework version's
    [types.String] has the fields [Unknown], [Null] and [Value], the
    latter [""] unless the value is known. *)
Record providerData : Type := mkProviderData {
  APIKey : tfvalue string;
  URL : tfvalue string
}.

Definition is_unknown {A} (v : tfvalue A) : bool :=
  match v with TUnknown => true | _ => false end.
Definition is_null {A} (v : tfvalue A) : bool :=
  match v with TNull => true | _ => false end.

Record lidarrProvider : Type := mkProvider {
  client : option LidarrClient;
  configured : bool;
  version : string
}.

(** [*lidarr.New(starr.New(key, url, 0))]. *)
Definition lidarr_New (key url : string) : LidarrClient := mkClient url key.

(** [New(version)()]: no client, not configured. *)
Definition New (version : string) : unit -> lidarrProvider :=
  fun _ => mkProvider None false version.

(** [lidarrProvider.Configure]; [config] is what [req.Config.Get] returns
    (its diagnostics and the decoded block) and [Getenv] is [os.Getenv]
    ([""] for an unset variable). *)
Definition Provider_Configure (Getenv : string -> string)
  (config : list Diagnostic * providerData) (p : lidarrProvider)
  : lidarrProvider * list Diagnostic :=
  let '(diags, data) := config in
  if HasError diags then (p, diags) else
  if is_unknown (URL data) then
    (p, (diags ++ [DiagWarning "Unable to create client" "Cannot use unknown value as url"])%list)
  else
  let url := if is_null (URL data) then Getenv "LIDARR_URL" else ValueString (URL data) in
  if String.eqb url "" then
    (p, (diags ++ [DiagError "Unable to find URL" "URL cannot be an empty string"])%list)
  else
  if is_unknown (APIKey data) then
    (p, (diags ++ [DiagWarning "Unable to create client" "Cannot use unknown value as api_key"])%list)
  else
  let key := if is_null (APIKey data) then Getenv "LIDARR_API_KEY" else ValueString (APIKey data) in
  if String.eqb key "" then
    (p, (diags ++ [DiagError "Unable to find API key" "API key cannot be an empty string"])%list)
  else (mkProvider (Some (lidarr_New key url)) true (version p), diags).

(** ** Observations used in the statements. *)

(** The last call a method issued is a Create or an Update whose request
    carries the given identity pair. *)
Definition sends_identity (before after : RemoteServer) (impl contract : string) : Prop :=
  exists c r, log after = (log before ++ [c])%list
    /\ (c = CallCreate r \/ exists id, c = CallUpdate id r)
    /\ WImplementation r = impl /\ WConfigContract r = contract.

(** What Configure does, for each shape of provider data. *)
Definition configure_behaviour (summary : string)
  (configure : option ProviderData -> option LidarrClient -> option LidarrClient * list Diagnostic) : Prop :=
  forall client,
    configure None client = (client, []) /\
    (forall c, configure (Some (PDLidarr c)) client = (Some c, [])) /\
    (forall t, configure (Some (PDOther t)) client =
       (client, [DiagError summary ("Expected *lidarr.Lidarr, got: " ++ t
                  ++ ". Please report this issue to the provider developers.")])).

(** ** Concrete inputs used to exercise the statements below. *)

(** A field codec that sends no fields and keeps the receiver on write. *)
#[local] Instance codec_none : NotificationCodec := {|
  readFields := fun _ => [];
  writeFields := fun n _ => n;
  Notification_write := fun n _ => n
|}.

Definition gotify_sample : NotificationGotify.NotificationGotify := {|
  NotificationGotify.Tags := TKnown [];
  NotificationGotify.Server := TKnown "http://gotify.lidarr:7878";
  NotificationGotify.Name := TKnown "gotify";
  NotificationGotify.AppToken := TKnown "Token";
  NotificationGotify.Priority := TKnown 5;
  NotificationGotify.ID := TKnown 1;
  NotificationGotify.OnGrab := TKnown false;
  NotificationGotify.OnReleaseImport := TKnown false;
  NotificationGotify.OnAlbumDelete := TNull;
  NotificationGotify.OnArtistDelete := TNull;
  NotificationGotify.IncludeHealthWarnings := TKnown false;
  NotificationGotify.OnApplicationUpdate := TKnown false;
  NotificationGotify.OnHealthIssue := TKnown false;
  NotificationGotify.OnHealthRestored := TNull;
  NotificationGotify.OnDownloadFailure := TKnown false;
  NotificationGotify.OnUpgrade := TKnown false;
  NotificationGotify.OnImportFailure := TKnown false |}.

(** The same configuration with a priority outside {0, 2, 5, 8}. *)
Definition gotify_bad_priority : NotificationGotify.NotificationGotify := {|
  NotificationGotify.Tags := TKnown [];
  NotificationGotify.Server := TKnown "http://gotify.lidarr:7878";
  NotificationGotify.Name := TKnown "gotify";
  NotificationGotify.AppToken := TKnown "Token";
  NotificationGotify.Priority := TKnown 3;
  NotificationGotify.ID := TUnknown;
  NotificationGotify.OnGrab := TKnown false;
  NotificationGotify.OnReleaseImport := TKnown false;
  NotificationGotify.OnAlbumDelete := TNull;
  NotificationGotify.OnArtistDelete := TNull;
  NotificationGotify.IncludeHealthWarnings := TKnown false;
  NotificationGotify.OnApplicationUpdate := TKnown false;
  NotificationGotify.OnHealthIssue := TKnown false;
  NotificationGotify.OnHealthRestored := TNull;
  NotificationGotify.OnDownloadFailure := TKnown false;
  NotificationGotify.OnUpgrade := TKnown false;
  NotificationGotify.OnImportFailure := TKnown false |}.

Definition email_sample : NotificationEmail.NotificationEmail := {|
  NotificationEmail.Tags := TKnown [];
  NotificationEmail.To := TKnown ["test@test.com"];
  NotificationEmail.Cc := TNull;
  NotificationEmail.Bcc := TNull;
  NotificationEmail.From := TKnown "from@example.com";
  NotificationEmail.Server := TKnown "http://transmission-corp.tv";
  NotificationEmail.Name := TKnown "email";
  NotificationEmail.Username := TNull;
  NotificationEmail.Password := TNull;
  NotificationEmail.ID := TKnown 1;
  NotificationEmail.Port := TKnown 587;
  NotificationEmail.RequireEncryption := TKnown true;
  NotificationEmail.OnGrab := TKnown false;
  NotificationEmail.OnReleaseImport := TKnown false;
  NotificationEmail.IncludeHealthWarnings := TKnown false;
  NotificationEmail.OnApplicationUpdate := TKnown false;
  NotificationEmail.OnHealthIssue := TKnown false;
  NotificationEmail.OnDownloadFailure := TKnown false;
  NotificationEmail.OnUpgrade := TKnown false;
  NotificationEmail.OnImportFailure := TKnown false |}.

(** A reachable server holding the gotify notification under id 1, and an
    unreachable one. *)
Definition server_gotify : RemoteServer :=
  mkServer true [set_Id (NotificationGotify.read gotify_sample) 1] 2 [].
Definition server_empty : RemoteServer := mkServer true [] 1 [].
Definition server_down : RemoteServer := mkServer false [] 1 [].

(** * Properties *)

(** ** Generic lifecycle lemmas *)

Lemma Create_log {T} (a : ResourceAdapter T) plan s :
  log (server_after (Create a plan s)) = (log s ++ [CallCreate (resource_read a plan)])%list.
Proof. unfold Create, CreateNotification; simpl; destruct (online s); reflexivity. Qed.

Lemma Update_log {T} (a : ResourceAdapter T) plan s :
  log (server_after (Update a plan s))
  = (log s ++ [CallUpdate (Id (resource_read a plan)) (resource_read a plan)])%list.
Proof.
  unfold Update, UpdateNotification; simpl.
  destruct (online s); simpl; [|reflexivity].
  destruct (existsb _ _); reflexivity.
Qed.


Lemma Read_cases {T} (a : ResourceAdapter T) st s :
  let o := Read a st s in
  (online s = true -> find (has_id (wire_id a st)) (records s) = None ->
     diagnostics o = [report a (read_label a) NotFound] /\ new_state o = Keep) /\
  (online s = false ->
     diagnostics o = [report a (read_label a) (Transport unreachable)] /\ new_state o = Keep).
Proof.
  cbv zeta; unfold Read, GetNotificationById; simpl.
  destruct (online s); simpl.
  - split; intros; try discriminate. match goal with H : find _ _ = None |- _ => rewrite H end. auto.
  - split; intros; try discriminate; auto.
Qed.

(** ** C1 *)

(** C1: for the custom script, gotify, email and subsonic adapters,
    projecting a typed record to the generic [Notification] with
    [toNotification] and back with [fromNotification] gives the record
    back, attribute for attribute. *)
Theorem projection_identity :
  (forall x, NotificationCustomScript.fromNotification (NotificationCustomScript.toNotification x) = x) /\
  (forall x, NotificationGotify.fromNotification (NotificationGotify.toNotification x) = x) /\
  (forall x, NotificationEmail.fromNotification (NotificationEmail.toNotification x) = x) /\
  (forall x, NotificationSubsonic.fromNotification (NotificationSubsonic.toNotification x) = x).
Proof. repeat split; intros []; reflexivity. Qed.

(** ** C2 *)

Lemma Create_sends {T} (a : ResourceAdapter T) impl contract plan s :
  WImplementation (resource_read a plan) = impl ->
  WConfigContract (resource_read a plan) = contract ->
  sends_identity s (server_after (Create a plan s)) impl contract.
Proof.
  intros Hi Hc. exists (CallCreate (resource_read a plan)), (resource_read a plan).
  rewrite Create_log. auto.
Qed.

Lemma Update_sends {T} (a : ResourceAdapter T) impl contract plan s :
  WImplementation (resource_read a plan) = impl ->
  WConfigContract (resource_read a plan) = contract ->
  sends_identity s (server_after (Update a plan s)) impl contract.
Proof.
  intros Hi Hc.
  exists (CallUpdate (Id (resource_read a plan)) (resource_read a plan)), (resource_read a plan).
  rewrite Update_log. split; [reflexivity|]. split; [right; eauto|]. auto.
Qed.

(** C2: every Create and every Update of the custom script, gotify,
    email and subsonic notification resources sends a request whose
    implementation / config_contract pair is the adapter's constant pair,
    whatever the plan holds. *)
Theorem identity_pair_on_requests `{NotificationCodec} :
  (forall plan s,
     sends_identity s (server_after (Create NotificationCustomScriptResource plan s)) "CustomScript" "CustomScriptSettings" /\
     sends_identity s (server_after (Update NotificationCustomScriptResource plan s)) "CustomScript" "CustomScriptSettings") /\
  (forall plan s,
     sends_identity s (server_after (Create NotificationGotifyResource plan s)) "Gotify" "GotifySettings" /\
     sends_identity s (server_after (Update NotificationGotifyResource plan s)) "Gotify" "GotifySettings") /\
  (forall plan s,
     sends_identity s (server_after (Create NotificationEmailResource plan s)) "Email" "EmailSettings" /\
     sends_identity s (server_after (Update NotificationEmailResource plan s)) "Email" "EmailSettings") /\
  (forall plan s,
     sends_identity s (server_after (Create NotificationSubsonicResource plan s)) "Xbmc" "XbmcSettings" /\
     sends_identity s (server_after (Update NotificationSubsonicResource plan s)) "Xbmc" "XbmcSettings").
Proof.
  repeat split; intros;
    first [apply Create_sends | apply Update_sends]; reflexivity.
Qed.

(** ** C3 *)



(** ** C4 *)

(** C4: a failed remote delete of the email notification is reported as
    "Unable to read ...", as is the subsonic one (helpers.Read), while the
    gotify resource labels the same failure "delete". *)
Theorem delete_failure_labels :
  diagnostics (Delete NotificationEmailResource email_sample server_down) =
    [DiagError "Client Error"
       "Unable to read notification_email, got error: dial tcp: connection refused"] /\
  (forall st, diagnostics (Delete NotificationSubsonicResource st server_down) =
    [DiagError "Client Error"
       "Unable to read notification_subsonic, got error: dial tcp: connection refused"]) /\
  diagnostics (Delete NotificationGotifyResource gotify_sample server_down) =
    [DiagError "Client Error"
       "Unable to delete notification_gotify, got error: dial tcp: connection refused"].
Proof. repeat split; reflexivity. Qed.

(** ** C5 *)

(** C5 (counterexample): reading the gotify notification from a server
    that no longer has it gives a fatal Client Error diagnostic labelled
    read, like an unreachable server, and the state is kept, not
    removed. *)
Lemma read_not_found_is_client_error :
  let o := Read NotificationGotifyResource gotify_sample server_empty in
  let o' := Read NotificationGotifyResource gotify_sample server_down in
  HasError (diagnostics o) = true /\ new_state o = Keep /\
  diagnostics o =
    [DiagError "Client Error" "Unable to read notification_gotify, got error: 404 Not Found"] /\
  HasError (diagnostics o') = true /\ new_state o' = Keep /\
  diagnostics o' =
    [DiagError "Client Error"
       "Unable to read notification_gotify, got error: dial tcp: connection refused"].
Proof. vm_compute. repeat split. Qed.

(** C5 (amended): for every resource, Read of an id the server does not
    know reports a Client Error labelled read with the server's error
    text, the same diagnostic it gives for a transport failure but for
    that text, and keeps the prior state: this holds for the lifecycle of
    every notification adapter, whose read diagnostic is spelled out for
    gotify, custom script, email and subsonic, and for the custom format
    resource, whatever error its endpoint returns. *)
Theorem read_not_found_keeps_state `{NotificationCodec} :
  (forall T (a : ResourceAdapter T) st s, online s = true ->
     find (has_id (wire_id a st)) (records s) = None ->
     diagnostics (Read a st s) = [report a (read_label a) NotFound]
     /\ new_state (Read a st s) = Keep) /\
  (forall T (a : ResourceAdapter T) st s, online s = false ->
     diagnostics (Read a st s) = [report a (read_label a) (Transport unreachable)]
     /\ new_state (Read a st s) = Keep) /\
  (forall e, report NotificationGotifyResource (read_label NotificationGotifyResource) e
     = DiagError "Client Error" ("Unable to read notification_gotify, got error: " ++ error_text e)) /\
  (forall e, report NotificationCustomScriptResource (read_label NotificationCustomScriptResource) e
     = DiagError "Client Error" ("Unable to read notification_custom_script, got error: " ++ error_text e)) /\
  (forall e, report NotificationEmailResource (read_label NotificationEmailResource) e
     = DiagError "Client Error" ("Unable to read notification_email, got error: " ++ error_text e)) /\
  (forall e, report NotificationSubsonicResource (read_label NotificationSubsonicResource) e
     = DiagError "Client Error" ("Unable to read notification_subsonic, got error: " ++ error_text e)) /\
  (forall C S (cw : S -> C) get (st : CustomFormat.CustomFormat C) e,
     get (int32_of (ValueInt64 (CustomFormat.ID st))) = Err e ->
     CustomFormatResource_Read cw get st
     = ([DiagError "Client Error" ("Unable to read custom_format, got error: " ++ error_text e)], Keep)).
Proof.
  split; [intros T a st s Hon Hnf; apply (proj1 (Read_cases a st s)); assumption|].
  split; [intros T a st s Hoff; apply (proj2 (Read_cases a st s)); assumption|].
  repeat split.
  intros C S cw get st e He. unfold CustomFormatResource_Read. rewrite He. reflexivity.
Qed.

(** ** C8 *)

Lemma existsb_priority z :
  existsb (Z.eqb z) [0; 2; 5; 8] = true <-> In z [0; 2; 5; 8].
Proof.
  rewrite existsb_exists. split.
  - intros [x [Hin Heq]]. apply Z.eqb_eq in Heq. subst. exact Hin.
  - intros Hin. exists z. split; [exact Hin | apply Z.eqb_refl].
Qed.

(** C8: a gotify configuration whose priority is a known value outside
    {0, 2, 5, 8} fails schema validation, and the framework then returns
    before Create or Update, with the server untouched (no call issued);
    a priority inside the set passes the validator. *)
Theorem gotify_priority_validated_before_network `{NotificationCodec} cfg s z
  (Hp : NotificationGotify.Priority cfg = TKnown z) :
  (In z [0; 2; 5; 8] -> NotificationGotify_ValidateConfig cfg = []) /\
  (~ In z [0; 2; 5; 8] ->
     HasError (NotificationGotify_ValidateConfig cfg) = true /\
     ApplyCreate NotificationGotify_ValidateConfig NotificationGotifyResource cfg s
       = mkOutcome s (NotificationGotify_ValidateConfig cfg) Keep /\
     ApplyUpdate NotificationGotify_ValidateConfig NotificationGotifyResource cfg s
       = mkOutcome s (NotificationGotify_ValidateConfig cfg) Keep).
Proof.
  unfold ApplyCreate, ApplyUpdate, NotificationGotify_ValidateConfig, OneOf.
  rewrite Hp. split.
  - intros Hin. apply existsb_priority in Hin. rewrite Hin. reflexivity.
  - intros Hout.
    destruct (existsb (Z.eqb z) [0; 2; 5; 8]) eqn:E.
    + apply existsb_priority in E. contradiction.
    + repeat split.
Qed.

(** ** C9 *)

(** C9 (counterexample): Configure of the email resource and of the
    indexer data source, called before the provider has supplied a
    client (nil provider data), returns without any diagnostic and
    leaves the client unset. *)
Lemma configure_without_client_is_silent :
  NotificationEmailResource_Configure None None = (None, []) /\
  IndexerDataSource_Configure None None = (None, []).
Proof. split; reflexivity. Qed.

(** C9 (amended): for the email resource and the indexer data source,
    Configure with nil provider data returns silently and keeps the
    current client; provider data holding a Lidarr client installs it;
    provider data of any other type keeps the client and is reported as
    the single error "Unexpected Resource Configure Type" (resource) or
    "Unexpected DataSource Configure Type" (data source), naming the
    type received. *)
Theorem configure_outcomes :
  configure_behaviour "Unexpected Resource Configure Type" NotificationEmailResource_Configure /\
  configure_behaviour "Unexpected DataSource Configure Type" IndexerDataSource_Configure.
Proof. split; intros client; repeat split. Qed.

(** ** C10 *)

(** C10: [findIndexer] returns the first indexer of the list whose name
    equals the requested name (exact string equality), and returns the
    data-not-found error exactly when no indexer has that name. *)
Theorem findIndexer_first_exact_match :
  forall name l,
    (match findIndexer name l with
     | inl i => exists pre post, l = (pre ++ i :: post)%list /\ IndexerName i = name
                 /\ Forall (fun j => IndexerName j <> name) pre
     | inr e => e = mkDataNotFound "indexer" "name" name
     end) /\
    ((exists e, findIndexer name l = inr e) <-> Forall (fun j => IndexerName j <> name) l).
Proof.
  intros name l. induction l as [|i l [IH1 IH2]]; simpl.
  - split; [reflexivity|]. split; [constructor | intros; eauto].
  - destruct (String.eqb_spec (IndexerName i) name) as [Heq|Hne].
    + split.
      * exists [], l. auto.
      * split; [intros [e He]; discriminate|].
        intros HF. inversion HF. contradiction.
    + split.
      * destruct (findIndexer name l) as [j|e]; [|exact IH1].
        destruct IH1 as (pre & post & -> & Hj & HF).
        exists (i :: pre), post. auto.
      * rewrite IH2. split; [intros HF; constructor; auto | intros HF; inversion HF; auto].
Qed.

(** ** Decimal text: [Itoa] and the digit reader *)

Lemma string_app_assoc (a b c : string) : ((a ++ b) ++ c = a ++ (b ++ c))%string.
Proof. induction a as [|x a IH]; simpl; [reflexivity | rewrite IH; reflexivity]. Qed.

Lemma utoa_acc f n acc : utoa f n acc = (utoa f n "" ++ acc)%string.
Proof.
  revert n acc; induction f as [|f IH]; intros n acc; simpl; [reflexivity|].
  destruct (n <? 10); [reflexivity|].
  rewrite (IH _ (String _ acc)), (IH _ (String _ "")), string_app_assoc. reflexivity.
Qed.

Lemma digits_value_app v s1 s2 :
  digits_value v (s1 ++ s2) =
  match digits_value v s1 with Some w => digits_value w s2 | None => None end.
Proof.
  revert v; induction s1 as [|c s1 IH]; intros v; simpl; [reflexivity|].
  destruct (is_digit c); [apply IH | reflexivity].
Qed.

Lemma digit_char_ok d :
  0 <= d <= 9 -> is_digit (digit_char d) = true /\ byte_of (digit_char d) - 48 = d.
Proof.
  intros H.
  assert (d = 0 \/ d = 1 \/ d = 2 \/ d = 3 \/ d = 4 \/ d = 5 \/ d = 6 \/ d = 7
          \/ d = 8 \/ d = 9) as Hd by lia.
  repeat destruct Hd as [-> | Hd]; subst; split; reflexivity.
Qed.

Lemma utoa_value f n :
  0 <= n < 10 ^ Z.of_nat f -> digits_value 0 (utoa f n "") = Some n.
Proof.
  revert n; induction f as [|f IH]; intros n Hn.
  - simpl in Hn. assert (n = 0) as -> by lia. reflexivity.
  - pose proof (Z.mod_pos_bound n 10 ltac:(lia)) as Hb.
    destruct (digit_char_ok (n mod 10) ltac:(lia)) as [Hdig Hval].
    cbn [utoa]. destruct (n <? 10) eqn:E.
    + apply Z.ltb_lt in E. cbn [digits_value]. rewrite Hdig, Hval.
      rewrite Z.mod_small by lia. reflexivity.
    + apply Z.ltb_ge in E.
      rewrite utoa_acc, digits_value_app, IH.
      * cbn [digits_value]. rewrite Hdig, Hval. f_equal.
        pose proof (Z.div_mod n 10 ltac:(lia)). lia.
      * rewrite Nat2Z.inj_succ, Z.pow_succ_r in Hn by lia.
        split; [apply Z.div_pos; lia | apply Z.div_lt_upper_bound; lia].
Qed.

Lemma utoa_nonempty f n : utoa (S f) n "" <> "".
Proof.
  cbn [utoa]. destruct (n <? 10); [discriminate|].
  rewrite utoa_acc. intros H. destruct (utoa f (n / 10) ""); discriminate.
Qed.

Lemma decimal_of_digits s v :
  digits_value 0 s = Some v -> s <> "" -> decimal_integer s = Some v.
Proof.
  destruct s as [|c rest]; [intros _ H; congruence|]. intros Hv _.
  simpl in Hv. destruct (is_digit c) eqn:Hc; [|discriminate].
  unfold decimal_integer.
  destruct (Ascii.eqb_spec c "-"%char) as [->|_]; [cbv in Hc; discriminate|].
  destruct (Ascii.eqb_spec c "+"%char) as [->|_]; [cbv in Hc; discriminate|].
  simpl. rewrite Hc. exact Hv.
Qed.

(** [Itoa] of a non-negative number is a decimal numeral that reads back
    as that number. *)
Lemma Itoa_decimal n : 0 <= n -> decimal_integer (Itoa n) = Some n.
Proof.
  intros Hn. unfold Itoa. rewrite Z.abs_eq by lia.
  replace (n <? 0) with false by (symmetry; apply Z.ltb_ge; lia).
  apply decimal_of_digits; [|apply utoa_nonempty].
  apply utoa_value. split; [lia|].
  rewrite Nat2Z.inj_succ, Z2Nat.id by apply Z.log2_nonneg.
  destruct (Z.eq_dec n 0) as [->|Hn0]; [reflexivity|].
  destruct (Z.log2_spec n ltac:(lia)) as [_ Hlt].
  eapply Z.lt_le_trans; [exact Hlt|].
  apply Z.pow_le_mono_l; lia.
Qed.

(** ** C7 *)

(** C7: a successful Read of the notifications data source maps each of
    the n listed records through the generic [write] (the projection the
    custom script and gotify resources also use), and sets [id] to
    [Itoa n], a decimal numeral reading back as n. *)
Theorem notifications_read_maps_each_record `{NotificationCodec} data s
  (Hon : online s = true) :
  let n := Z.of_nat (List.length (records s)) in
  NotificationsDataSource_Read data s =
    mkOutcome (log_call s CallList) []
      (SetState (mkNotifications
                   (TKnown (map (Notification_write Notification.zero) (records s)))
                   (TKnown (Itoa n))))
  /\ decimal_integer (Itoa n) = Some n
  /\ (forall x r, NotificationGotify.write x r =
        NotificationGotify.fromNotification (Notification_write (NotificationGotify.toNotification x) r))
  /\ (forall x r, NotificationCustomScript.write x r =
        NotificationCustomScript.fromNotification
          (Notification_write (NotificationCustomScript.toNotification x) r)).
Proof.
  cbv zeta. split; [|split; [apply Itoa_decimal; lia | split; reflexivity]].
  unfold NotificationsDataSource_Read, ListNotification; simpl.
  rewrite Hon. reflexivity.
Qed.

(** ** Go's [strconv.Atoi] accepts exactly the decimal numerals in the
    int64 range. *)

Lemma byte_of_bound c : 0 <= byte_of c <= 255.
Proof.
  unfold byte_of. pose proof (nat_ascii_bounded c). lia.
Qed.

Lemma maxUint64_value : maxUint64 = 18446744073709551615.
Proof. reflexivity. Qed.

Lemma uint64_cutoff_value : maxUint64 / 10 + 1 = 1844674407370955162.
Proof. reflexivity. Qed.

(** The fast path's wrapped [ch] is a digit exactly when the byte is one. *)
Lemma Atoi_fast_loop_digits s : forall a, Atoi_fast_loop a s = digits_value a s.
Proof.
  induction s as [|c s IH]; intros a; [reflexivity|].
  cbn [Atoi_fast_loop digits_value]. unfold is_digit.
  pose proof (byte_of_bound c) as Hb.
  destruct ((48 <=? byte_of c) && (byte_of c <=? 57)) eqn:Hd.
  - apply andb_true_iff in Hd as [H1 H2].
    apply Z.leb_le in H1. apply Z.leb_le in H2.
    rewrite (Z.mod_small (byte_of c - 48) 256) by lia.
    replace (byte_of c - 48 >? 9) with false
      by (symmetry; rewrite Z.gtb_ltb; apply Z.ltb_ge; lia).
    apply IH.
  - assert (Hr : 9 < (byte_of c - 48) mod 256).
    { apply andb_false_iff in Hd as [Hd|Hd].
      - apply Z.leb_gt in Hd.
        rewrite <- (Z.mod_unique (byte_of c - 48) 256 (-1) (byte_of c - 48 + 256)); lia.
      - apply Z.leb_gt in Hd.
        rewrite Z.mod_small; lia. }
    replace ((byte_of c - 48) mod 256 >? 9) with true
      by (symmetry; apply Z.gtb_lt; lia).
    reflexivity.
Qed.

(** Reading more digits never decreases the accumulated value, and adds
    less than one unit of the accumulator per digit position. *)
Lemma digits_value_bounds s : forall a v,
  0 <= a -> digits_value a s = Some v ->
  a * 10 ^ Z.of_nat (String.length s) <= v < (a + 1) * 10 ^ Z.of_nat (String.length s).
Proof.
  induction s as [|c s IH]; intros a v Ha Hv.
  - simpl in Hv. injection Hv as <-. simpl. lia.
  - cbn [digits_value] in Hv. unfold is_digit in Hv.
    destruct ((48 <=? byte_of c) && (byte_of c <=? 57)) eqn:Hd; [|discriminate].
    apply andb_true_iff in Hd as [H1 H2].
    apply Z.leb_le in H1. apply Z.leb_le in H2.
    apply IH in Hv; [|lia].
    cbn [String.length]. rewrite Nat2Z.inj_succ, Z.pow_succ_r by lia.
    pose proof (Z.pow_pos_nonneg 10 (Z.of_nat (String.length s)) ltac:(lia) ltac:(lia)).
    set (P := 10 ^ Z.of_nat (String.length s)) in *. nia.
Qed.

Lemma digits_value_ge s a v : 0 <= a -> digits_value a s = Some v -> a <= v.
Proof.
  intros Ha Hv. apply digits_value_bounds in Hv; [|exact Ha].
  pose proof (Z.pow_pos_nonneg 10 (Z.of_nat (String.length s)) ltac:(lia) ltac:(lia)).
  nia.
Qed.

(** [ParseUint]'s loop succeeds exactly on digit strings whose value fits
    in 64 bits; the uint64 wrap-around of [n1] is caught by [n1 < n]. *)
Lemma ParseUint_loop_ok s : forall n v,
  0 <= n <= maxUint64 ->
  (ParseUint_loop n s = (v, None) <-> digits_value n s = Some v /\ v <= maxUint64).
Proof.
  induction s as [|c s IH]; intros n v Hn.
  - simpl. split; [intros H; injection H as <-; split; [reflexivity | lia]|].
    intros [H Hv]. injection H as <-. reflexivity.
  - cbn [ParseUint_loop digits_value]. unfold is_digit.
    pose proof (byte_of_bound c) as Hb.
    rewrite maxUint64_value in *.
    destruct ((48 <=? byte_of c) && (byte_of c <=? 57)) eqn:Hd;
      [|split; [discriminate|intros [H _]; discriminate]].
    apply andb_true_iff in Hd as [H1 H2].
    apply Z.leb_le in H1. apply Z.leb_le in H2.
    rewrite <- maxUint64_value, uint64_cutoff_value, maxUint64_value.
    destruct (n >=? 1844674407370955162) eqn:Hc.
    + apply Z.geb_le in Hc. split; [discriminate|].
      intros [Hv Hle]. apply digits_value_ge in Hv; lia.
    + rewrite Z.geb_leb in Hc. apply Z.leb_gt in Hc.
      assert (Hsum : 0 <= n * 10 + (byte_of c - 48) < 2 * 2 ^ 64)
        by (change (2 ^ 64) with 18446744073709551616; lia).
      destruct (Z_lt_le_dec (n * 10 + (byte_of c - 48)) (2 ^ 64)) as [Hlt|Hge].
      * rewrite (Z.mod_small _ (2 ^ 64)) by lia.
        change (2 ^ 64) with 18446744073709551616 in Hlt.
        destruct ((n * 10 + (byte_of c - 48) <? n * 10)
                  || (n * 10 + (byte_of c - 48) >? 18446744073709551615)) eqn:Ho.
        -- split; [discriminate|]. intros [Hv Hle].
           apply digits_value_ge in Hv; [|lia].
           apply orb_true_iff in Ho as [Ho|Ho];
             [apply Z.ltb_lt in Ho | apply Z.gtb_lt in Ho]; lia.
        -- apply orb_false_iff in Ho as [Ho1 Ho2].
           apply Z.ltb_ge in Ho1. rewrite Z.gtb_ltb in Ho2. apply Z.ltb_ge in Ho2.
           apply IH. lia.
      * rewrite <- (Z.mod_unique (n * 10 + (byte_of c - 48)) (2 ^ 64) 1
                   (n * 10 + (byte_of c - 48) - 2 ^ 64)) by lia.
        change (2 ^ 64) with 18446744073709551616 in *.
        replace (n * 10 + (byte_of c - 48) - 18446744073709551616 <? n * 10) with true
          by (symmetry; apply Z.ltb_lt; lia).
        split; [discriminate|]. intros [Hv Hle].
        apply digits_value_ge in Hv; lia.
Qed.

Lemma ParseUint_loop_range s : forall n u,
  ParseUint_loop n s = (u, Some ErrRange) -> u = maxUint64.
Proof.
  induction s as [|c s IH]; intros n u H; [discriminate|].
  cbn [ParseUint_loop] in H.
  destruct ((48 <=? byte_of c) && (byte_of c <=? 57)); [|discriminate].
  destruct (n >=? maxUint64 / 10 + 1); [congruence|].
  destruct (_ || _); [congruence|]. eapply IH; exact H.
Qed.

Lemma ParseUint_ok u v :
  ParseUint u = (v, None) <-> u <> "" /\ digits_value 0 u = Some v /\ v <= maxUint64.
Proof.
  destruct u as [|c u].
  - simpl. split; [discriminate|intros [H _]; congruence].
  - unfold ParseUint. rewrite ParseUint_loop_ok by (rewrite maxUint64_value; lia).
    split; [intros [H1 H2]; repeat split; auto; discriminate|intros [_ H]; exact H].
Qed.

Lemma ParseUint_range u un : ParseUint u = (un, Some ErrRange) -> un = maxUint64.
Proof.
  destruct u as [|c u]; [discriminate|]. apply ParseUint_loop_range.
Qed.

(** The part of [ParseInt] after the sign. *)
Lemma ParseInt_tail neg u i :
  (let '(un, err) := ParseUint u in
   match err with
   | Some ErrSyntax => (0, Some ErrSyntax)
   | _ =>
     let cutoff := 2 ^ 63 in
     if negb neg && (un >=? cutoff) then (cutoff - 1, Some ErrRange)
     else if neg && (un >? cutoff) then (- cutoff, Some ErrRange)
     else ((if neg then - un else un), None)
   end) = (i, None)
  <-> u <> "" /\ (exists v, digits_value 0 u = Some v /\ i = (if neg then - v else v))
      /\ - 2 ^ 63 <= i < 2 ^ 63.
Proof.
  assert (Hback : forall v, u <> "" -> digits_value 0 u = Some v -> v <= 2 ^ 63 ->
                    ParseUint u = (v, None)).
  { intros v Hu Hv Hle. apply ParseUint_ok. rewrite maxUint64_value.
    repeat split; auto. change (2 ^ 63) with 9223372036854775808 in Hle. lia. }
  destruct (ParseUint u) as [un err] eqn:Hpu.
  destruct err as [[|]|].
  - split; [discriminate|]. intros [Hu [[v [Hv ->]] Hr]].
    pose proof (digits_value_ge _ _ _ (Z.le_refl 0) Hv).
    exfalso. assert (Hx := Hback v Hu Hv ltac:(destruct neg; lia)). discriminate Hx.
  - pose proof (ParseUint_range _ _ Hpu) as ->.
    split; [intros Hx; rewrite maxUint64_value in Hx; destruct neg; vm_compute in Hx; discriminate Hx|].
    intros [Hu [[v [Hv ->]] Hr]].
    pose proof (digits_value_ge _ _ _ (Z.le_refl 0) Hv).
    exfalso. assert (Hx := Hback v Hu Hv ltac:(destruct neg; lia)). discriminate Hx.
  - apply ParseUint_ok in Hpu as [Hu [Hv Hle]].
    pose proof (digits_value_ge _ _ _ (Z.le_refl 0) Hv).
    destruct neg; cbv zeta; cbn [negb andb].
    + destruct (un >? 2 ^ 63) eqn:Hc.
      * apply Z.gtb_lt in Hc. split; [discriminate|].
        intros [_ [[v [Hv' ->]] Hr]]. rewrite Hv in Hv'. injection Hv' as <-. lia.
      * rewrite Z.gtb_ltb in Hc. apply Z.ltb_ge in Hc.
        split.
        -- intros H'. injection H' as <-. split; [exact Hu|].
           split; [exists un; auto | lia].
        -- intros [_ [[v [Hv' ->]] Hr]]. rewrite Hv in Hv'. injection Hv' as <-.
           reflexivity.
    + destruct (un >=? 2 ^ 63) eqn:Hc.
      * apply Z.geb_le in Hc. split; [discriminate|].
        intros [_ [[v [Hv' ->]] Hr]]. rewrite Hv in Hv'. injection Hv' as <-. lia.
      * rewrite Z.geb_leb in Hc. apply Z.leb_gt in Hc.
        split.
        -- intros H'. injection H' as <-. split; [exact Hu|].
           split; [exists un; auto | lia].
        -- intros [_ [[v [Hv' ->]] Hr]]. rewrite Hv in Hv'. injection Hv' as <-.
           reflexivity.
Qed.

Lemma ParseInt_ok s i :
  ParseInt s = (i, None) <-> decimal_integer s = Some i /\ - 2 ^ 63 <= i < 2 ^ 63.
Proof.
  destruct s as [|c rest].
  - split; [discriminate|intros [H _]; discriminate].
  - unfold ParseInt, decimal_integer.
    destruct (Ascii.eqb c "+"%char) eqn:Ep.
    + assert (Em : Ascii.eqb c "-"%char = false)
        by (apply Ascii.eqb_eq in Ep; subst; reflexivity).
      rewrite Em. cbv beta iota. rewrite ParseInt_tail.
      destruct rest as [|c' rest'].
      * split; [intros [H _]; congruence | intros [H _]; discriminate].
      * split.
        -- intros [_ [[v [Hv ->]] Hr]]. split; [exact Hv | exact Hr].
        -- intros [Hv Hr]. split; [discriminate|]. split; [exists i; auto | exact Hr].
    + destruct (Ascii.eqb c "-"%char) eqn:Em; cbv beta iota; rewrite ParseInt_tail.
      * destruct rest as [|c' rest'].
        -- split; [intros [H _]; congruence | intros [H _]; discriminate].
        -- split.
           ++ intros [_ [[v [Hv ->]] Hr]]. rewrite Hv. split; [reflexivity | exact Hr].
           ++ intros [Hv Hr].
              destruct (digits_value 0 (String c' rest')) as [v|] eqn:Hd; [|discriminate].
              injection Hv as <-. split; [discriminate|].
              split; [exists v; auto | exact Hr].
      * split.
        -- intros [_ [[v [Hv ->]] Hr]]. split; [exact Hv | exact Hr].
        -- intros [Hv Hr]. split; [discriminate|]. split; [exists i; auto | exact Hr].
Qed.

Lemma ParseInt_result_inl t i :
  (let '(i64, err) := ParseInt t in
   match err with None => inl i64 | Some e => inr e end) = inl i
  <-> decimal_integer t = Some i /\ - 2 ^ 63 <= i < 2 ^ 63.
Proof.
  rewrite <- ParseInt_ok.
  destruct (ParseInt t) as [j [e|]]; split; intros H; congruence.
Qed.

(** A digit string of at most 18 digits is below [2 ^ 63]: the fast
    path of [Atoi] needs no overflow check. *)
Lemma short_digits_in_range u v :
  (String.length u <= 18)%nat -> digits_value 0 u = Some v -> 0 <= v < 2 ^ 63.
Proof.
  intros Hl Hv. apply digits_value_bounds in Hv; [|lia].
  assert (Hp : 10 ^ Z.of_nat (String.length u) <= 10 ^ 18)
    by (apply Z.pow_le_mono_r; lia).
  change (10 ^ 18) with 1000000000000000000 in Hp.
  change (2 ^ 63) with 9223372036854775808. lia.
Qed.

Lemma Atoi_ok s i :
  Atoi s = inl i <-> decimal_integer s = Some i /\ - 2 ^ 63 <= i < 2 ^ 63.
Proof.
  destruct s as [|c rest]; [apply ParseInt_result_inl|].
  unfold Atoi. cbv beta iota zeta.
  destruct (String.length (String c rest) <? 19)%nat eqn:Hlen;
    [|apply ParseInt_result_inl].
  apply Nat.ltb_lt in Hlen. cbn [String.length] in Hlen.
  unfold decimal_integer.
  destruct (Ascii.eqb c "-"%char) eqn:Em; cbv beta iota.
  - destruct rest as [|c' rest'];
      [split; [discriminate | intros [H _]; discriminate]|].
    rewrite Atoi_fast_loop_digits.
    destruct (digits_value 0 (String c' rest')) as [v|] eqn:Hv; cbn [option_map];
      [|split; [discriminate | intros [H _]; discriminate]].
    pose proof (short_digits_in_range (String c' rest') v ltac:(lia) Hv) as Hrange.
    split; [intros H; injection H as <-; split; [reflexivity | lia]
           | intros [H _]; injection H as <-; reflexivity].
  - destruct (Ascii.eqb c "+"%char) eqn:Ep; cbv beta iota.
    + destruct rest as [|c' rest'];
        [split; [discriminate | intros [H _]; discriminate]|].
      rewrite Atoi_fast_loop_digits.
      destruct (digits_value 0 (String c' rest')) as [v|] eqn:Hv;
        [|split; [discriminate | intros [H _]; discriminate]].
      pose proof (short_digits_in_range (String c' rest') v ltac:(lia) Hv) as Hrange.
      split; [intros H; injection H as <-; split; [reflexivity | lia]
             | intros [H _]; injection H as <-; reflexivity].
    + rewrite Atoi_fast_loop_digits.
      destruct (digits_value 0 (String c rest)) as [v|] eqn:Hv;
        [|split; [discriminate | intros [H _]; discriminate]].
      pose proof (short_digits_in_range (String c rest) v ltac:(cbn [String.length]; lia) Hv) as Hrange.
      split; [intros H; injection H as <-; split; [reflexivity | lia]
             | intros [H _]; injection H as <-; reflexivity].
Qed.

(** ** C6 *)

(** C6 (counterexample): "9223372036854775808" is a decimal integer, but
    [strconv.Atoi] reports it out of range, so Import fails with an error
    and leaves the id unset instead of setting it to that integer. *)
Lemma import_out_of_range_rejected :
  decimal_integer "9223372036854775808" = Some 9223372036854775808 /\
  HasError (diagnostics
    (NotificationEmailResource_ImportState "9223372036854775808" server_empty)) = true /\
  new_state (NotificationEmailResource_ImportState "9223372036854775808" server_empty)
    = Keep.
Proof.
  split; [|split]; vm_compute; reflexivity.
Qed.

(** C6 (amended): Import of the email notification resource never
    touches the remote server.  An identifier that is a decimal integer in
    the int64 range sets the [id] attribute to that integer with no
    diagnostic; any other identifier (not a decimal integer, or one
    outside [-2^63, 2^63)) yields the single error "Unexpected Import
    Identifier", quoting the identifier, and leaves the state unset. *)
Theorem import_state_sets_int64_id s srv :
  let o := NotificationEmailResource_ImportState s srv in
  server_after o = srv /\
  match decimal_integer s with
  | Some n =>
      if (- 2 ^ 63 <=? n) && (n <? 2 ^ 63)
      then diagnostics o = [] /\ new_state o = SetState (TKnown n)
      else diagnostics o =
             [DiagError tools_UnexpectedImportIdentifier
                ("Expected import identifier with format: ID. Got: " ++ go_quote s)]
           /\ new_state o = Keep
  | None =>
      diagnostics o =
        [DiagError tools_UnexpectedImportIdentifier
           ("Expected import identifier with format: ID. Got: " ++ go_quote s)]
      /\ new_state o = Keep
  end.
Proof.
  cbv zeta. unfold NotificationEmailResource_ImportState.
  destruct (Atoi s) as [z|e] eqn:E.
  - apply Atoi_ok in E as [-> [H1 H2]].
    replace ((- 2 ^ 63 <=? z) && (z <? 2 ^ 63)) with true
      by (symmetry; apply andb_true_iff; split; [apply Z.leb_le | apply Z.ltb_lt]; lia).
    split; [reflexivity | split; reflexivity].
  - split; [reflexivity|].
    destruct (decimal_integer s) as [n|] eqn:D; [|split; reflexivity].
    destruct ((- 2 ^ 63 <=? n) && (n <? 2 ^ 63)) eqn:R; [|split; reflexivity].
    exfalso. apply andb_true_iff in R as [R1 R2].
    apply Z.leb_le in R1. apply Z.ltb_lt in R2.
    assert (Atoi s = inl n) by (apply Atoi_ok; auto). congruence.
Qed.

(** ** Witnesses *)

Lemma notifications_read_witness :
  online server_gotify = true /\
  NotificationsDataSource_Read (mkNotifications TNull TNull) server_gotify =
    mkOutcome (log_call server_gotify CallList) []
      (SetState (mkNotifications
         (TKnown (map (Notification_write Notification.zero) (records server_gotify)))
         (TKnown (Itoa 1)))).
Proof.
  split; [reflexivity|].
  refine (proj1 (@notifications_read_maps_each_record codec_none
                   (mkNotifications TNull TNull) server_gotify _)).
  reflexivity.
Defined.

Lemma gotify_priority_witness :
  NotificationGotify.Priority gotify_bad_priority = TKnown 3 /\
  ApplyCreate NotificationGotify_ValidateConfig NotificationGotifyResource
    gotify_bad_priority server_gotify
  = mkOutcome server_gotify (NotificationGotify_ValidateConfig gotify_bad_priority) Keep.
Proof.
  split; [reflexivity|].
  refine (proj1 (proj2 (proj2 (@gotify_priority_validated_before_network codec_none
                   gotify_bad_priority server_gotify 3 _) _))).
  - reflexivity.
  - simpl. intuition discriminate.
Defined.

(** * Further properties of the adapters and the provider *)

(** ** Helpers *)

Lemma string_app_cancel_l (p a b : string) : (p ++ a = p ++ b)%string -> a = b.
Proof.
  induction p as [|c p IH]; simpl; [auto|]. intros H. injection H. auto.
Qed.

Lemma NoDup_map_inj {A B} (f : A -> B) (l : list A) :
  (forall x y, f x = f y -> x = y) -> NoDup l -> NoDup (map f l).
Proof.
  intros Hf Hl. induction Hl as [|x l Hx Hl IH]; simpl; constructor; auto.
  intros Hin. apply in_map_iff in Hin as [y [Hy Hin]].
  apply Hf in Hy. subst. contradiction.
Qed.

Lemma int32_of_range z : - 2 ^ 31 <= int32_of z < 2 ^ 31.
Proof.
  unfold int32_of.
  pose proof (Z.mod_pos_bound z (2 ^ 32) ltac:(lia)).
  destruct (z mod 2 ^ 32 >=? 2 ^ 31) eqn:E.
  - apply Z.geb_le in E. change (2 ^ 32) with 4294967296 in *.
    change (2 ^ 31) with 2147483648 in *. lia.
  - rewrite Z.geb_leb in E. apply Z.leb_gt in E. change (2 ^ 32) with 4294967296 in *.
    change (2 ^ 31) with 2147483648 in *. lia.
Qed.

Lemma int32_of_small z : - 2 ^ 31 <= z < 2 ^ 31 -> int32_of z = z.
Proof.
  intros Hz. unfold int32_of. change (2 ^ 32) with 4294967296 in *.
  change (2 ^ 31) with 2147483648 in *.
  destruct (Z_lt_le_dec z 0) as [Hneg|Hpos].
  - rewrite <- (Z.mod_unique z 4294967296 (-1) (z + 4294967296)) by lia.
    replace (z + 4294967296 >=? 2147483648) with true
      by (symmetry; apply Z.geb_le; lia).
    lia.
  - rewrite Z.mod_small by lia.
    replace (z >=? 2147483648) with false
      by (symmetry; rewrite Z.geb_leb; apply Z.leb_gt; lia).
    reflexivity.
Qed.

Lemma int32_of_mod a b : a mod 2 ^ 32 = b mod 2 ^ 32 -> int32_of a = int32_of b.
Proof. unfold int32_of. intros ->. reflexivity. Qed.

Lemma Read_log {T} (a : ResourceAdapter T) st s :
  log (server_after (Read a st s)) = (log s ++ [CallGet (wire_id a st)])%list.
Proof.
  unfold Read, GetNotificationById; simpl.
  destruct (online s); simpl; [|reflexivity].
  destruct (find _ _); reflexivity.
Qed.

Lemma Delete_log {T} (a : ResourceAdapter T) st s :
  log (server_after (Delete a st s)) = (log s ++ [CallDelete (wire_id a st)])%list.
Proof.
  unfold Delete, DeleteNotification; simpl.
  destruct (online s); simpl; [|reflexivity].
  destruct (existsb _ _); reflexivity.
Qed.

Lemma Read_wire_id {T} (a : ResourceAdapter T) st st' s :
  wire_id a st = wire_id a st' ->
  server_after (Read a st s) = server_after (Read a st' s) /\
  diagnostics (Read a st s) = diagnostics (Read a st' s).
Proof.
  intros H. unfold Read. rewrite H.
  destruct (GetNotificationById s (wire_id a st')) as [s' [r|e]]; split; reflexivity.
Qed.

Lemma Delete_wire_id {T} (a : ResourceAdapter T) st st' s :
  wire_id a st = wire_id a st' -> Delete a st s = Delete a st' s.
Proof. intros H. unfold Delete. rewrite H. reflexivity. Qed.

Lemma findIndexer_find name l :
  findIndexer name l =
  match find (fun i => String.eqb (IndexerName i) name) l with
  | Some i => inl i
  | None => inr (mkDataNotFound indexerDataSourceName "name" name)
  end.
Proof.
  induction l as [|i l IH]; simpl; [reflexivity|].
  destruct (String.eqb (IndexerName i) name); [reflexivity | exact IH].
Qed.

(** [Itoa] of any integer reads back as that integer. *)
Lemma Itoa_decimal_all n : decimal_integer (Itoa n) = Some n.
Proof.
  destruct (Z_le_dec 0 n) as [Hn|Hn]; [apply Itoa_decimal; exact Hn|].
  unfold Itoa. replace (n <? 0) with true by (symmetry; apply Z.ltb_lt; lia).
  set (u := Z.abs n).
  assert (Hu : 0 < u) by (unfold u; lia).
  assert (Hv : digits_value 0 (utoa (S (Z.to_nat (Z.log2 u))) u "") = Some u).
  { apply utoa_value. split; [lia|].
    rewrite Nat2Z.inj_succ, Z2Nat.id by apply Z.log2_nonneg.
    destruct (Z.log2_spec u Hu) as [_ Hlt].
    eapply Z.lt_le_trans; [exact Hlt|]. apply Z.pow_le_mono_l; lia. }
  pose proof (utoa_nonempty (Z.to_nat (Z.log2 u)) u) as Hne.
  unfold decimal_integer.
  replace (Ascii.eqb "-"%char "-"%char) with true by reflexivity.
  destruct (utoa (S (Z.to_nat (Z.log2 u))) u "") as [|c rest]; [congruence|].
  rewrite Hv. simpl. f_equal. unfold u. lia.
Qed.

(** ** Type names *)

(** For every provider type name, the type names the five resources of
    this snapshot answer in [Metadata] are pairwise distinct, and so are
    those of the two data sources. *)
Theorem type_names_distinct providerTypeName :
  NoDup (map (fun n => Metadata n providerTypeName) resource_names) /\
  NoDup (map (fun n => Metadata n providerTypeName) data_source_names).
Proof.
  assert (Hinj : forall x y, Metadata x providerTypeName = Metadata y providerTypeName -> x = y).
  { unfold Metadata. intros x y H. apply string_app_cancel_l in H.
    injection H. auto. }
  split; apply NoDup_map_inj; auto;
    repeat constructor; cbv; intuition discriminate.
Qed.

(** ** The provider *)

(** After a successful decoding of the provider block, Configure installs
    a client built from the url and API key, marks the provider configured
    and keeps its version, exactly when neither value is unknown and both
    resolve (a null value from [LIDARR_URL] / [LIDARR_API_KEY]) to a
    non-empty string, with no diagnostic; otherwise it leaves the provider
    as it was and reports exactly one diagnostic. *)
Theorem provider_configure_result Getenv data p :
  let url := if is_null (URL data) then Getenv "LIDARR_URL" else ValueString (URL data) in
  let key := if is_null (APIKey data) then Getenv "LIDARR_API_KEY" else ValueString (APIKey data) in
  let ok := is_unknown (URL data) = false /\ url <> "" /\
            is_unknown (APIKey data) = false /\ key <> "" in
  (ok -> Provider_Configure Getenv ([], data) p
         = (mkProvider (Some (mkClient url key)) true (version p), [])) /\
  (~ ok -> fst (Provider_Configure Getenv ([], data) p) = p /\
           List.length (snd (Provider_Configure Getenv ([], data) p)) = 1%nat).
Proof.
  cbv zeta. unfold Provider_Configure. cbn [HasError existsb].
  destruct (is_unknown (URL data)) eqn:U.
  - split; [intros (H & _); discriminate | intros _; split; reflexivity].
  - destruct (String.eqb_spec (if is_null (URL data) then Getenv "LIDARR_URL"
                               else ValueString (URL data)) "") as [E|E].
    + split; [intros (_ & H & _); contradiction | intros _; split; reflexivity].
    + destruct (is_unknown (APIKey data)) eqn:K.
      * split; [intros (_ & _ & H & _); discriminate | intros _; split; reflexivity].
      * destruct (String.eqb_spec (if is_null (APIKey data) then Getenv "LIDARR_API_KEY"
                                   else ValueString (APIKey data)) "") as [E'|E'].
        -- split; [intros (_ & _ & _ & H); contradiction | intros _; split; reflexivity].
        -- split; [intros _; reflexivity | intros H; exfalso; apply H; auto].
Qed.

(** An unknown url, or an unknown API key once the url is usable, adds
    exactly one warning "Unable to create client" naming the unknown
    value, and no error: Configure leaves the provider unconfigured. *)
Theorem provider_configure_unknown_only_warns Getenv diags data p
  (Hget : HasError diags = false)
  (Hunknown : is_unknown (URL data) = true \/
              (is_unknown (URL data) = false /\
               (if is_null (URL data) then Getenv "LIDARR_URL" else ValueString (URL data)) <> "" /\
               is_unknown (APIKey data) = true)) :
  Provider_Configure Getenv (diags, data) p =
    (p, (diags ++ [DiagWarning "Unable to create client"
                     (if is_unknown (URL data) then "Cannot use unknown value as url"
                      else "Cannot use unknown value as api_key")])%list) /\
  HasError (snd (Provider_Configure Getenv (diags, data) p)) = false.
Proof.
  assert (Hres : Provider_Configure Getenv (diags, data) p =
    (p, (diags ++ [DiagWarning "Unable to create client"
                     (if is_unknown (URL data) then "Cannot use unknown value as url"
                      else "Cannot use unknown value as api_key")])%list)).
  { unfold Provider_Configure. rewrite Hget.
    destruct Hunknown as [U | (U & E & K)].
    - rewrite U. reflexivity.
    - rewrite U. apply String.eqb_neq in E. rewrite E, K. reflexivity. }
  split; [exact Hres|]. rewrite Hres. cbn [snd].
  unfold HasError in *. rewrite existsb_app, Hget. reflexivity.
Qed.

(** A url that is missing (known empty, or null with [LIDARR_URL] unset
    or empty) is reported as the single error "Unable to find URL", before
    the API key is looked at: the result does not depend on the key. *)
Theorem provider_configure_missing_url Getenv diags data p
  (Hget : HasError diags = false)
  (Hknown : is_unknown (URL data) = false)
  (Hempty : (if is_null (URL data) then Getenv "LIDARR_URL" else ValueString (URL data)) = "") :
  Provider_Configure Getenv (diags, data) p
  = (p, (diags ++ [DiagError "Unable to find URL" "URL cannot be an empty string"])%list).
Proof.
  unfold Provider_Configure. rewrite Hget, Hknown, Hempty. reflexivity.
Qed.

(** ** The custom format adapter *)

(** Sending a custom format with [read] and storing the echoed response
    with [write] normalises it: the id comes back as [int32(id)] (a null
    id as 0), a null name as "", a null flag as false, and the
    specifications pass through the condition codec. *)
Theorem custom_format_read_write_normalises {C S} (cw : S -> C) (cr : C -> S)
  (c : CustomFormat.CustomFormat C) :
  CustomFormat.write cw (CustomFormat.read cr c) =
    CustomFormat.mk
      (TKnown (map (fun x => cw (cr x)) (ValueAs (CustomFormat.Specifications c))))
      (TKnown (ValueString (CustomFormat.Name c)))
      (TKnown (int32_of (ValueInt64 (CustomFormat.ID c))))
      (TKnown (ValueBool (CustomFormat.IncludeCustomFormatWhenRenaming c))) /\
  (forall i, CustomFormat.ID c = TKnown i ->
     (CustomFormat.ID (CustomFormat.write cw (CustomFormat.read cr c)) = TKnown i
      <-> - 2 ^ 31 <= i < 2 ^ 31)).
Proof.
  split.
  - unfold CustomFormat.write, CustomFormat.read. simpl. rewrite map_map. reflexivity.
  - intros i Hi. unfold CustomFormat.write, CustomFormat.read. simpl. rewrite Hi. simpl.
    split.
    + intros H. injection H as H. rewrite <- H. apply int32_of_range.
    + intros H. rewrite int32_of_small by exact H. reflexivity.
Qed.

(** A custom format whose attributes are all known, whose id fits in
    int32 and whose conditions survive the condition codec, is stored back
    unchanged after [read] and [write]. *)
Theorem custom_format_round_trip {C S} (cw : S -> C) (cr : C -> S)
  (c : CustomFormat.CustomFormat C) specs name i inc
  (Hs : CustomFormat.Specifications c = TKnown specs)
  (Hn : CustomFormat.Name c = TKnown name)
  (Hi : CustomFormat.ID c = TKnown i)
  (Hinc : CustomFormat.IncludeCustomFormatWhenRenaming c = TKnown inc)
  (Hrange : - 2 ^ 31 <= i < 2 ^ 31)
  (Hcond : forall x, In x specs -> cw (cr x) = x) :
  CustomFormat.write cw (CustomFormat.read cr c) = c.
Proof.
  destruct c as [s n id b]; simpl in *; subst.
  unfold CustomFormat.write, CustomFormat.read; simpl.
  rewrite int32_of_small by exact Hrange. rewrite map_map.
  rewrite (map_ext_in _ (fun x => x) specs Hcond), map_id. reflexivity.
Qed.

(** ** The indexer data source *)

(** Read stores the first indexer (in the server's order) whose name is
    exactly the configured name, a null name searching for ""; when none
    matches it reports "Unable to find indexer" with the not-found error
    for that name and keeps the state; when the list call fails it
    reports "Unable to read indexer" with the error text. *)
Theorem indexer_read_first_match {Indexer} (nm : Indexer -> tfvalue string)
  (w : Indexer -> IndexerOutput -> Indexer) dse nft data :
  (forall l, IndexerDataSource_Read nm w dse nft data (Ok l) =
     match find (fun i => String.eqb (IndexerName i) (ValueString (nm data))) l with
     | Some i => ([], SetState (w data i))
     | None => ([DiagError dse ("Unable to find indexer, got error: "
                  ++ nft (mkDataNotFound "indexer" "name" (ValueString (nm data))))], Keep)
     end) /\
  (forall e, IndexerDataSource_Read nm w dse nft data (Err e) =
     ([DiagError tools_ClientError ("Unable to read indexer, got error: " ++ error_text e)], Keep)).
Proof.
  split; [|reflexivity].
  intros l. unfold IndexerDataSource_Read. rewrite findIndexer_find.
  destruct (find _ l); reflexivity.
Qed.

(** ** Import round trip *)

(** Importing the email notification under [strconv.Itoa(n)], for any
    int64 n, sets the id to n with no diagnostic and no remote call. *)
Theorem import_state_of_Itoa n s (Hn : - 2 ^ 63 <= n < 2 ^ 63) :
  NotificationEmailResource_ImportState (Itoa n) s = mkOutcome s [] (SetState (TKnown n)).
Proof.
  unfold NotificationEmailResource_ImportState.
  replace (Atoi (Itoa n)) with (@inl Z NumError n)
    by (symmetry; apply Atoi_ok; split; [apply Itoa_decimal_all | exact Hn]).
  reflexivity.
Qed.

(** ** Remote ids *)

(** The gotify, custom script and subsonic resources address the remote
    record by [int32(ID)]: two states whose ids agree modulo 2^32 read the
    same remote record (same call, same diagnostics) and delete it alike.
    The email resource sends the full int64 id: distinct ids give distinct
    Get calls. *)
Theorem int32_ids_alias `{NotificationCodec} s :
  (forall st st',
     ValueInt64 (NotificationGotify.ID st) mod 2 ^ 32 = ValueInt64 (NotificationGotify.ID st') mod 2 ^ 32 ->
     server_after (Read NotificationGotifyResource st s) = server_after (Read NotificationGotifyResource st' s) /\
     diagnostics (Read NotificationGotifyResource st s) = diagnostics (Read NotificationGotifyResource st' s) /\
     Delete NotificationGotifyResource st s = Delete NotificationGotifyResource st' s) /\
  (forall st st',
     ValueInt64 (NotificationCustomScript.ID st) mod 2 ^ 32 = ValueInt64 (NotificationCustomScript.ID st') mod 2 ^ 32 ->
     server_after (Read NotificationCustomScriptResource st s) = server_after (Read NotificationCustomScriptResource st' s) /\
     diagnostics (Read NotificationCustomScriptResource st s) = diagnostics (Read NotificationCustomScriptResource st' s) /\
     Delete NotificationCustomScriptResource st s = Delete NotificationCustomScriptResource st' s) /\
  (forall st st',
     ValueInt64 (NotificationSubsonic.ID st) mod 2 ^ 32 = ValueInt64 (NotificationSubsonic.ID st') mod 2 ^ 32 ->
     server_after (Read NotificationSubsonicResource st s) = server_after (Read NotificationSubsonicResource st' s) /\
     diagnostics (Read NotificationSubsonicResource st s) = diagnostics (Read NotificationSubsonicResource st' s) /\
     Delete NotificationSubsonicResource st s = Delete NotificationSubsonicResource st' s) /\
  (forall st st',
     ValueInt64 (NotificationEmail.ID st) <> ValueInt64 (NotificationEmail.ID st') ->
     log (server_after (Read NotificationEmailResource st s))
     <> log (server_after (Read NotificationEmailResource st' s))).
Proof.
  split; [|split; [|split]]; intros st st' Hid.
  1-3: assert (Hw : int32_of (ValueInt64 _) = int32_of (ValueInt64 _))
         by (apply int32_of_mod; exact Hid).
  1: change (wire_id NotificationGotifyResource st = wire_id NotificationGotifyResource st') in Hw.
  2: change (wire_id NotificationCustomScriptResource st = wire_id NotificationCustomScriptResource st') in Hw.
  3: change (wire_id NotificationSubsonicResource st = wire_id NotificationSubsonicResource st') in Hw.
  1-3: destruct (Read_wire_id _ st st' s Hw) as [H1 H2];
       split; [exact H1 | split; [exact H2 | apply Delete_wire_id; exact Hw]].
  rewrite !Read_log. intros Hl. apply app_inv_head in Hl.
  injection Hl. simpl. exact Hid.
Qed.

(** ** The lifecycle methods *)

(** Each Create, Read, Update and Delete of a notification resource issues
    exactly one remote call, whatever its outcome (no retry): a create of
    the request, a get or a delete of the wire id, an update of the
    request under the request's own id. *)
Theorem lifecycle_one_remote_call {T} (a : ResourceAdapter T) plan st s :
  log (server_after (Create a plan s)) = (log s ++ [CallCreate (resource_read a plan)])%list /\
  log (server_after (Read a st s)) = (log s ++ [CallGet (wire_id a st)])%list /\
  log (server_after (Update a plan s))
    = (log s ++ [CallUpdate (Id (resource_read a plan)) (resource_read a plan)])%list /\
  log (server_after (Delete a st s)) = (log s ++ [CallDelete (wire_id a st)])%list.
Proof.
  split; [apply Create_log|]. split; [apply Read_log|].
  split; [apply Update_log | apply Delete_log].
Qed.

(** ** Witnesses *)

Lemma provider_configure_unknown_only_warns_witness :
  let data := mkProviderData (TKnown "key") TUnknown in
  let getenv := fun _ : string => "" in
  HasError [] = false /\
  (is_unknown (URL data) = true \/
   (is_unknown (URL data) = false /\
    (if is_null (URL data) then getenv "LIDARR_URL" else ValueString (URL data)) <> "" /\
    is_unknown (APIKey data) = true)) /\
  Provider_Configure getenv ([], data) (New "1.0" tt) =
    (New "1.0" tt, ([] ++ [DiagWarning "Unable to create client"
                            (if is_unknown (URL data) then "Cannot use unknown value as url"
                             else "Cannot use unknown value as api_key")])%list) /\
  HasError (snd (Provider_Configure getenv ([], data) (New "1.0" tt))) = false.
Proof.
  cbv zeta. split; [reflexivity|]. split; [left; reflexivity|].
  apply provider_configure_unknown_only_warns; [reflexivity | left; reflexivity].
Defined.

Lemma provider_configure_missing_url_witness :
  let data := mkProviderData (TKnown "key") TNull in
  let getenv := fun _ : string => "" in
  HasError [] = false /\ is_unknown (URL data) = false /\
  (if is_null (URL data) then getenv "LIDARR_URL" else ValueString (URL data)) = "" /\
  Provider_Configure getenv ([], data) (New "1.0" tt)
  = (New "1.0" tt, ([] ++ [DiagError "Unable to find URL" "URL cannot be an empty string"])%list).
Proof.
  cbv zeta. split; [reflexivity|]. split; [reflexivity|]. split; [reflexivity|].
  apply provider_configure_missing_url; reflexivity.
Defined.

Lemma custom_format_round_trip_witness :
  let c := CustomFormat.mk (TKnown [1%nat; 2%nat]) (TKnown "x") (TKnown (-7)) (TKnown true) in
  (- 2 ^ 31 <= -7 < 2 ^ 31) /\
  CustomFormat.write (fun x : nat => x) (CustomFormat.read (fun x : nat => x) c) = c.
Proof.
  cbv zeta. split; [split; vm_compute; congruence|].
  apply (custom_format_round_trip (fun x : nat => x) (fun x : nat => x) _
           [1%nat; 2%nat] "x" (-7) true);
    [reflexivity | reflexivity | reflexivity | reflexivity
    | split; vm_compute; congruence | intros; reflexivity].
Defined.

Lemma import_state_of_Itoa_witness :
  (- 2 ^ 63 <= -42 < 2 ^ 63) /\
  NotificationEmailResource_ImportState (Itoa (-42)) server_empty
  = mkOutcome server_empty [] (SetState (TKnown (-42))).
Proof.
  split; [split; vm_compute; congruence|].
  apply import_state_of_Itoa. split; vm_compute; congruence.
Defined.
